(** * Multitask BERT fine-tuning driver: a shallow embedding

    The development follows [multitask_classifier.py]:
    - [Py]: the exceptions the driver can raise and the outcome of a call;
    - [PyFloat]: Python's [float], the IEEE 754 binary64 numbers;
    - [Bert]: the [MultitaskBERT] constructor and its parameter groups;
    - [Driver]: the loss helpers, [save_model], the three training
      procedures, [test_multitask] and the command-line dispatch;
    - [Surgery]: the gradient-surgery projection of the PCGrad optimizer.

    Tensors and their arithmetic, the encoder, the data sets, the
    optimizers and the evaluation routines are collaborators of the
    driver: their types form the class [Collab], their operations the
    class [Ops]. Opening a file for writing, [torch.save] and moving
    the model or a batch to the device ([.to(device)]) are taken to
    succeed: the run has the directories and the device it asks for. *)

From Stdlib Require Import QArith Qcanon Ascii.
From Stdlib Require Import Floats.SpecFloat.
From stdpp Require Import base option list strings pretty gmap numbers.

Open Scope string_scope.
Open Scope Qc_scope.

(* ================================================================== *)
(** ** Python outcomes *)
(* ================================================================== *)

Module Py.

(** An exception is identified by the name of its class. *)
Record exn := PyExc { exn_class : string }.

Definition AssertionError : exn := PyExc "AssertionError".
Definition TypeError : exn := PyExc "TypeError".
Definition ValueError : exn := PyExc "ValueError".
Definition ZeroDivisionError : exn := PyExc "ZeroDivisionError".

Inductive outcome (A : Type) : Type :=
| Ok (a : A)
| Raise (e : exn).
Arguments Ok {A} a.
Arguments Raise {A} e.

Definition raised {A} (o : outcome A) : option exn :=
  match o with Ok _ => None | Raise e => Some e end.

Definition returned {A} (o : outcome A) : option A :=
  match o with Ok a => Some a | Raise _ => None end.

#[global] Instance exn_eq_dec : EqDecision exn.
Proof. solve_decision. Defined.

End Py.
Import Py.

(* ================================================================== *)
(** ** Python floats *)
(* ================================================================== *)

Module PyFloat.

(** A Python [float] (and a [numpy.float64]) is an IEEE 754 binary64
    number: 53 bits of precision, infinities at exponent 1024. Sums and
    quotients round to nearest, ties to even; a comparison with a NaN
    is false. *)
Definition float : Type := spec_float.

Definition prec : Z := 53.
Definition emax : Z := 1024.

(** [float(n)] for an [int]; also what [n] becomes when an arithmetic
    operation or a comparison mixes it with a float. *)
Definition of_int (n : Z) : float := binary_normalize prec emax n 0 false.

(** [x + y], [x / y] for a non-zero [y], and [x < y]. *)
Definition add (x y : float) : float := SFadd prec emax x y.
Definition div (x y : float) : float := SFdiv prec emax x y.
Definition lt (x y : float) : bool := SFltb x y.

End PyFloat.
Abbreviation float := PyFloat.float.

(* ================================================================== *)
(** ** The model: [class MultitaskBERT] *)
(* ================================================================== *)

Module Bert.

(** The [SimpleNamespace] built by the training procedures. *)
Record Config := mkConfig {
  hidden_dropout_prob : float;
  num_labels : list string;
  hidden_size : nat;
  data_dir : string;
  fine_tune_mode : string
}.

(** [torch.nn.Dropout(p)]: the constructor refuses a probability
    outside [0, 1] ([if p < 0 or p > 1: raise ValueError]). *)
Definition out_of_range (p : float) : bool :=
  PyFloat.lt p (PyFloat.of_int 0) || PyFloat.lt (PyFloat.of_int 1) p.

Definition Dropout (p : float) : outcome float :=
  if out_of_range p then Raise ValueError else Ok p.

Section Tensors.
(** Tensors are the collaborator's, and so is the generator [R] a
    freshly created parameter of a given name and shape draws its
    initial value from. *)
Context {T R : Type}.
Variable initial : string -> list nat -> R -> T * R.

(** A [torch.nn.Parameter]: the tensor it holds, its gradient buffer
    and the [requires_grad] flag. *)
Record Param := mkParam {
  pname : string;
  pdata : T;
  grad : option T;
  requires_grad : bool
}.

Definition set_requires_grad (b : bool) (p : Param) : Param :=
  {| pname := pname p; pdata := pdata p; grad := grad p;
     requires_grad := b |}.

(** [torch.nn.Linear] and [torch.nn.Bilinear] create a weight and a
    bias, both trainable, and initialise the weight, then the bias,
    from the generator. *)
Record Layer := mkLayer {
  in_features : list nat;
  out_features : nat;
  weight : Param;
  bias : Param
}.

Definition fresh (name : string) (shape : list nat) (r : R) : Param * R :=
  let '(t, r) := initial name shape r in
  ({| pname := name; pdata := t; grad := None; requires_grad := true |}, r).

Definition Linear (name : string) (i o : nat) (r : R) : Layer * R :=
  let '(w, r) := fresh (name ++ ".weight") [o; i] r in
  let '(b, r) := fresh (name ++ ".bias") [o] r in
  ({| in_features := [i]; out_features := o; weight := w; bias := b |}, r).

Definition Bilinear (name : string) (i1 i2 o : nat) (r : R) : Layer * R :=
  let '(w, r) := fresh (name ++ ".weight") [o; i1; i2] r in
  let '(b, r) := fresh (name ++ ".bias") [o] r in
  ({| in_features := [i1; i2]; out_features := o; weight := w; bias := b |},
   r).

Definition layer_parameters (l : Layer) : list Param :=
  [weight l; bias l].

Record MultitaskBERT := mkModel {
  bert : list Param;
  last_dropout : float;
  last_sentiment : Layer;
  last_para : Layer;
  last_similar : Layer
}.

Definition head_parameters (m : MultitaskBERT) : list Param :=
  layer_parameters (last_sentiment m) ++ layer_parameters (last_para m)
    ++ layer_parameters (last_similar m).

(** [model.parameters()]. *)
Definition parameters (m : MultitaskBERT) : list Param :=
  bert m ++ head_parameters m.

(** The body of [for param in self.bert.parameters()]. *)
Definition fine_tune (mode : string) (param : Param) : Param :=
  if String.eqb mode "last-linear-layer"
  then set_requires_grad false param
  else if String.eqb mode "full-model" then set_requires_grad true param
  else param.

Definition valid_modes : list string :=
  ["last-linear-layer"; "full-model"].

(** [MultitaskBERT.__init__]; [pretrained] is what
    [BertModel.from_pretrained('bert-base-uncased')] returned and [r]
    the state of the generator the three heads are initialised from.
    The result is the model, or the exception, and the generator as the
    constructor leaves it. *)
Definition init (pretrained : list Param) (config : Config) (r : R)
  : outcome MultitaskBERT * R :=
  if bool_decide (fine_tune_mode config ∈ valid_modes) then
    let bert := map (fine_tune (fine_tune_mode config)) pretrained in
    match Dropout (hidden_dropout_prob config) with
    | Raise e => (Raise e, r)
    | Ok p =>
        let '(sentiment, r) :=
          Linear "last_sentiment" (hidden_size config)
                 (length (num_labels config)) r in
        let '(para, r) :=
          Bilinear "last_para" (hidden_size config) (hidden_size config)
                   1 r in
        let '(similar, r) :=
          Bilinear "last_similar" (hidden_size config)
                   (hidden_size config) 1 r in
        (Ok {| bert := bert;
               last_dropout := p;
               last_sentiment := sentiment;
               last_para := para;
               last_similar := similar |}, r)
    end
  else (Raise AssertionError, r).

End Tensors.

Arguments Param : clear implicits.
Arguments Layer : clear implicits.
Arguments MultitaskBERT : clear implicits.

End Bert.

(* ================================================================== *)
(** ** Collaborators of the driver *)
(* ================================================================== *)

Module Driver.
Import Bert.

(** The [argparse] namespace, with [filepath] as set by the main block. *)
Record Args := mkArgs {
  sst_train : string; sst_dev : string; sst_test : string;
  para_train : string; para_dev : string; para_test : string;
  sts_train : string; sts_dev : string; sts_test : string;
  seed : Z;
  epochs : Z;
  args_fine_tune_mode : string;
  use_gpu : bool;
  sst_dev_out : string; sst_test_out : string;
  para_dev_out : string; para_test_out : string;
  sts_dev_out : string; sts_test_out : string;
  sst_batch_size : Z; para_batch_size : Z; sts_batch_size : Z;
  args_hidden_dropout_prob : float;
  lr : float;
  model_path : option string;
  file_prefix : string;
  train_type : option string;
  filepath : string
}.

Definition set_filepath (a : Args) (p : string) : Args :=
  mkArgs (sst_train a) (sst_dev a) (sst_test a)
         (para_train a) (para_dev a) (para_test a)
         (sts_train a) (sts_dev a) (sts_test a)
         (seed a) (epochs a) (args_fine_tune_mode a) (use_gpu a)
         (sst_dev_out a) (sst_test_out a) (para_dev_out a) (para_test_out a)
         (sts_dev_out a) (sts_test_out a)
         (sst_batch_size a) (para_batch_size a) (sts_batch_size a)
         (args_hidden_dropout_prob a) (lr a) (model_path a) (file_prefix a)
         (train_type a) p.

(** Everything the driver imports and calls but does not define:
    tensors and batches, the data sets, the forward passes, the torch
    loss kernels and tensor arithmetic, the optimizers and autograd, the
    evaluation routines, the three random generators and the text
    rendering of numbers. *)
Class Collab := {
  Tensor : Type;
  Batch : Type;
  Dataset : Type;
  Pred : Type;
  OptState : Type;
  OptimDict : Type;
  SysRng : Type;
  NpRng : Type;
  TorchRng : Type;
}.

Section World.
Context `{Collab}.

Abbreviation Param := (Bert.Param Tensor).
Abbreviation Layer := (Bert.Layer Tensor).
Abbreviation MultitaskBERT := (Bert.MultitaskBERT Tensor).

(** [model.state_dict()]: parameter name to tensor. *)
Definition StateDict : Type := list (string * Tensor).

Definition state_dict (m : MultitaskBERT) : StateDict :=
  map (fun p => (pname p, pdata p)) (parameters m).

(** The three process-wide generators. *)
Record Rngs := mkRngs {
  system_rng : SysRng;
  numpy_rng : NpRng;
  torch_rng : TorchRng
}.

Definition set_torch_rng (t : TorchRng) (r : Rngs) : Rngs :=
  mkRngs (system_rng r) (numpy_rng r) t.

(** [AdamW(...)], [torch.optim.Adam(...)] and the [PCGrad] wrapper,
    whose attribute [optimizer] is the wrapped one. *)
Inductive Optimizer :=
| AdamW (st : OptState)
| Adam (st : OptState)
| PCGrad (optimizer : Optimizer).

(** [pc.optimizer]. *)
Definition optimizer_of (o : Optimizer) : Optimizer :=
  match o with PCGrad inner => inner | _ => o end.

(** A value stored in the [save_info] dictionary. *)
Inductive Value :=
| VModel (sd : StateDict)
| VOptim (od : OptimDict)
| VArgs (a : Args)
| VConfig (c : Config)
| VSysRng (r : SysRng)
| VNpRng (r : NpRng)
| VTorchRng (r : TorchRng).

(** A file on disk: a pickled dictionary or text. *)
Inductive File :=
| Pickle (d : gmap string Value)
| Text (s : string).

(** Calls into the optimizer and autograd, in program order; a loss is
    the zero-dimensional tensor the call is made on or with. *)
Inductive Call :=
| train_mode
| zero_grad
| backward (loss : Tensor)
| pc_backward (losses : list Tensor)
| step.

(** A [DataLoader]. *)
Record DataLoader := mkLoader {
  dataset : Dataset;
  shuffle : bool;
  batch_size : Z
}.

Record World := mkWorld {
  rng : Rngs;
  disk : gmap string File;
  stdout : list string;
  calls : list Call
}.

Definition set_rng (r : Rngs) (w : World) : World :=
  mkWorld r (disk w) (stdout w) (calls w).
Definition set_disk (d : gmap string File) (w : World) : World :=
  mkWorld (rng w) d (stdout w) (calls w).
Definition set_stdout (o : list string) (w : World) : World :=
  mkWorld (rng w) (disk w) o (calls w).
Definition set_calls (c : list Call) (w : World) : World :=
  mkWorld (rng w) (disk w) (stdout w) c.

(** Computations of the driver: they may raise, and what they did to
    the world before raising stays done. *)
Definition M (A : Type) : Type := World -> outcome A * World.

Definition ret {A} (a : A) : M A := fun w => (Ok a, w).

Definition bind {A B} (c : M A) (k : A -> M B) : M B :=
  fun w => match c w with
           | (Ok a, w') => k a w'
           | (Raise e, w') => (Raise e, w')
           end.

Definition raise {A} (e : exn) : M A := fun w => (Raise e, w).

Definition of_outcome {A} (o : outcome A) : M A := fun w => (o, w).

Definition print (s : string) : M unit :=
  fun w => (Ok tt, set_stdout (stdout w ++ [s]) w).

Definition sample {A} (f : Rngs -> A * Rngs) : M A :=
  fun w => let '(a, r) := f (rng w) in (Ok a, set_rng r w).

Definition write_file (path : string) (f : File) : M unit :=
  fun w => (Ok tt, set_disk (<[path := f]> (disk w)) w).

(** What [torch.load] returns, or one entry of it. *)
Inductive PyObj :=
| OFile (f : File)
| OValue (v : Value).

(** What [model_eval_multitask] and [model_eval_test_multitask]
    return: per task the predictions and the sentence ids, and on the
    dev split the metric. *)
Record DevEval := mkDevEval {
  dev_sentiment_accuracy : float;
  dev_sst_y_pred : list Pred; dev_sst_sent_ids : list string;
  dev_paraphrase_accuracy : float;
  dev_para_y_pred : list Pred; dev_para_sent_ids : list string;
  dev_sts_corr : float;
  dev_sts_y_pred : list Pred; dev_sts_sent_ids : list string
}.

Record TestEval := mkTestEval {
  test_sst_y_pred : list Pred; test_sst_sent_ids : list string;
  test_para_y_pred : list Pred; test_para_sent_ids : list string;
  test_sts_y_pred : list Pred; test_sts_sent_ids : list string
}.

Class Ops := {
  (* datasets.py: reading the three files of a split may fail *)
  load_multitask_data :
    string -> string -> string -> string ->
    outcome (Dataset * list string * Dataset * Dataset);
  SentenceClassificationDataset : Dataset -> Args -> Dataset;
  SentenceClassificationTestDataset : Dataset -> Args -> Dataset;
  SentencePairDataset : Dataset -> Args -> bool -> Dataset;
  SentencePairTestDataset : Dataset -> Args -> Dataset;
  (* [len(dataset)], one pass over a loader, and [batch[key]] *)
  dataset_len : Dataset -> nat;
  iterate : DataLoader -> Rngs -> list Batch * Rngs;
  getitem : Batch -> string -> Tensor;
  (* bert.py and torch.nn *)
  from_pretrained : list Param;
  initial_tensor : string -> list nat -> TorchRng -> Tensor * TorchRng;
  bert_forward : list Param -> Tensor -> Tensor -> Rngs -> Tensor * Rngs;
  dropout : float -> Tensor -> Rngs -> Tensor * Rngs;
  apply_layer : Layer -> list Tensor -> Tensor;
  load_state_dict : MultitaskBERT -> PyObj -> outcome MultitaskBERT;
  (* torch and torch.nn.functional: the size of a tensor, the three
     loss expressions up to the division by the batch size, and the
     arithmetic on their zero-dimensional results *)
  shape : Tensor -> list nat;
  cross_entropy_sum : Tensor -> Tensor -> Tensor;
  binary_cross_entropy_sum : Tensor -> Tensor -> Tensor;
  cosine_distance_sum : Tensor -> Tensor -> Tensor;
  tensor_div : Tensor -> Z -> Tensor;
  tensor_add : Tensor -> Tensor -> Tensor;
  item : Tensor -> float;
  (* optimizer.py, torch.optim, pcgrad.py and autograd *)
  optim_init : list Param -> float -> OptState;
  optim_state_dict : Optimizer -> OptimDict;
  effect : Call -> MultitaskBERT * Optimizer -> MultitaskBERT * Optimizer;
  (* evaluation.py: accuracy and f1 *)
  model_eval_sst :
    DataLoader -> MultitaskBERT -> Rngs -> (float * float) * Rngs;
  model_eval_para :
    DataLoader -> MultitaskBERT -> Rngs -> (float * float) * Rngs;
  model_eval_sts :
    DataLoader -> MultitaskBERT -> Rngs -> (float * float) * Rngs;
  model_eval_multitask :
    DataLoader -> DataLoader -> DataLoader -> MultitaskBERT ->
    Rngs -> DevEval * Rngs;
  model_eval_test_multitask :
    DataLoader -> DataLoader -> DataLoader -> MultitaskBERT ->
    Rngs -> TestEval * Rngs;
  (* seeding and text rendering *)
  random_seed : Z -> SysRng;
  np_random_seed : Z -> NpRng;
  torch_manual_seed : Z -> TorchRng;
  str_pred : Pred -> string;
  str_int : Z -> string;
  str_float : float -> string;
  fmt_3f : float -> string
}.

End World.

Arguments Ops {_}.
Arguments M {_} A.
Arguments World {_}.

(** The driver's computations form a monad; stdpp's [x ← c; k] and
    [c;; k] are its sequencing. *)
#[global] Instance M_ret `{Collab} : MRet M := @ret _.
#[global] Instance M_bind `{Collab} : MBind M := fun A B k c => bind c k.

(* ================================================================ *)
(** ** The driver *)
(* ================================================================ *)

Section Program.
Context `{C : Collab} {O : @Ops C}.

Abbreviation Param := (Bert.Param Tensor).
Abbreviation Layer := (Bert.Layer Tensor).
Abbreviation MultitaskBERT := (Bert.MultitaskBERT Tensor).

Definition StopIteration : exn := PyExc "StopIteration".
Definition AttributeError : exn := PyExc "AttributeError".
Definition FileNotFoundError : exn := PyExc "FileNotFoundError".
Definition UnpicklingError : exn := PyExc "UnpicklingError".
Definition KeyError : exn := PyExc "KeyError".

Definition get_rng : M Rngs := fun w => (Ok (rng w), w).

(** A call into the optimizer or autograd: it is recorded, and changes
    the model and the optimizer as the collaborator says. *)
Definition invoke (c : Call) (t : MultitaskBERT * Optimizer)
  : M (MultitaskBERT * Optimizer) :=
  fun w => (Ok (effect c t), set_calls (calls w ++ [c]) w).

(** [for x in xs: s = body(x, s)]. *)
Fixpoint for_ {A S : Type} (xs : list A) (body : A -> S -> M S) (s : S)
  : M S :=
  match xs with
  | [] => ret s
  | x :: rest => s' ← body x s; for_ rest body s'
  end.

Definition range (n : Z) : list Z := map Z.of_nat (seq 0 (Z.to_nat n)).

(** [next(iter(loader))]. *)
Definition next_iter (l : DataLoader) : M Batch :=
  bs ← sample (iterate l);
  match bs with
  | b :: _ => ret b
  | [] => raise StopIteration
  end.

(** [x / n] on Python numbers, [n] an [int]. *)
Definition true_div (x : float) (n : Z) : M float :=
  if bool_decide (n = 0%Z) then raise ZeroDivisionError
  else ret (PyFloat.div x (PyFloat.of_int n)).

(** [torch.load(path)] and [saved[key]]. *)
Definition torch_load (path : string) : M File :=
  fun w => match disk w !! path with
           | Some (Pickle d) => (Ok (Pickle d), w)
           | Some (Text _) => (Raise UnpicklingError, w)
           | None => (Raise FileNotFoundError, w)
           end.

Definition subscript (f : File) (key : string) : M Value :=
  match f with
  | Pickle d => match d !! key with
                | Some v => ret v
                | None => raise KeyError
                end
  | Text _ => raise KeyError
  end.

(** *** Methods of [MultitaskBERT] *)

(** [MultitaskBERT(config)]: the heads are initialised from the global
    torch generator, which the constructor advances. *)
Definition construct (config : Config) : M MultitaskBERT :=
  fun w =>
    let '(o, t) :=
      Bert.init initial_tensor from_pretrained config (torch_rng (rng w)) in
    (o, set_rng (set_torch_rng t (rng w)) w).

Definition forward (m : MultitaskBERT) (input_ids attention_mask : Tensor)
  : M Tensor :=
  sample (bert_forward (bert m) input_ids attention_mask).

Definition predict_sentiment (m : MultitaskBERT)
    (input_ids attention_mask : Tensor) : M Tensor :=
  bert_out ← forward m input_ids attention_mask;
  d ← sample (dropout (last_dropout m) bert_out);
  ret (apply_layer (last_sentiment m) [d]).

Definition predict_paraphrase (m : MultitaskBERT)
    (input_ids_1 attention_mask_1 input_ids_2 attention_mask_2 : Tensor)
  : M Tensor :=
  bert_out_1 ← forward m input_ids_1 attention_mask_1;
  bert_out_2 ← forward m input_ids_2 attention_mask_2;
  d1 ← sample (dropout (last_dropout m) bert_out_1);
  d2 ← sample (dropout (last_dropout m) bert_out_2);
  ret (apply_layer (last_para m) [d1; d2]).

Definition predict_similarity (m : MultitaskBERT)
    (input_ids_1 attention_mask_1 input_ids_2 attention_mask_2 : Tensor)
  : M Tensor :=
  bert_out_1 ← forward m input_ids_1 attention_mask_1;
  bert_out_2 ← forward m input_ids_2 attention_mask_2;
  d1 ← sample (dropout (last_dropout m) bert_out_1);
  d2 ← sample (dropout (last_dropout m) bert_out_2);
  ret (apply_layer (last_similar m) [d1; d2]).

(** *** The loss helpers

    A [def] has a parameter list; calling it with another number of
    positional arguments raises [TypeError] before the body runs. A loss
    is a zero-dimensional tensor. *)

Inductive Actual :=
| ATensor (t : Tensor)
| AArgs (a : Args).

Record Function := def {
  formals : list string;
  body : list Actual -> outcome Tensor
}.

Definition call (f : Function) (actuals : list Actual) : M Tensor :=
  if bool_decide (length actuals = length (formals f))
  then of_outcome (body f actuals)
  else raise TypeError.

(** The size of [torch.squeeze(t)] and of [t.view(-1)], from the size
    of [t]. *)
Definition squeeze (size : list nat) : list nat :=
  filter (fun d => d <> 1%nat) size.

Definition view_flat (size : list nat) : list nat :=
  [foldr Nat.mul 1%nat size].

Definition sst_loss : Function :=
  def ["logits"; "b_labels"; "args"]
      (fun actuals =>
         match actuals with
         | [ATensor logits; ATensor b_labels; AArgs args] =>
             Ok (tensor_div (cross_entropy_sum logits b_labels)
                            (sst_batch_size args))
         | _ => Raise AttributeError
         end).

(** [F.binary_cross_entropy(input, target, ...)] raises [ValueError]
    unless [input] and [target] have the same size; here [input] has
    the size of [torch.squeeze(logits)] and [target] that of
    [b_labels.view(-1)]. *)
Definition para_loss : Function :=
  def ["logits"; "b_labels"; "args"]
      (fun actuals =>
         match actuals with
         | [ATensor logits; ATensor b_labels; AArgs args] =>
             if bool_decide (squeeze (shape logits)
                             = view_flat (shape b_labels))
             then Ok (tensor_div (binary_cross_entropy_sum logits b_labels)
                                 (para_batch_size args))
             else Raise ValueError
         | _ => Raise AttributeError
         end).

Definition sts_loss : Function :=
  def ["logits"; "b_labels"; "args"]
      (fun actuals =>
         match actuals with
         | [ATensor logits; ATensor b_labels; AArgs args] =>
             Ok (tensor_div (cosine_distance_sum logits b_labels)
                            (sts_batch_size args))
         | _ => Raise AttributeError
         end).

(** *** [save_model] *)

Definition save_info (model : MultitaskBERT) (optimizer : Optimizer)
    (args : Args) (config : Config) (r : Rngs) : gmap string Value :=
  list_to_map
    [("model", VModel (state_dict model));
     ("optim", VOptim (optim_state_dict optimizer));
     ("args", VArgs args);
     ("model_config", VConfig config);
     ("system_rng", VSysRng (system_rng r));
     ("numpy_rng", VNpRng (numpy_rng r));
     ("torch_rng", VTorchRng (torch_rng r))].

Definition save_model (model : MultitaskBERT) (optimizer : Optimizer)
    (args : Args) (config : Config) (filepath : string) : M unit :=
  r ← get_rng;
  write_file filepath (Pickle (save_info model optimizer args config r));;
  print ("save the model to " ++ filepath).

(** *** Data sets and loaders of the training procedures *)

(** [DataLoader(dataset, shuffle=..., batch_size=...)]: with
    [shuffle=True] the sampler refuses a data set without examples, and
    the batch sampler refuses a batch size that is not positive; both
    with [ValueError]. *)
Definition new_DataLoader (dataset : Dataset) (shuffle : bool)
    (batch_size : Z) : outcome DataLoader :=
  if shuffle && bool_decide (dataset_len dataset = 0%nat)
  then Raise ValueError
  else if bool_decide (batch_size <= 0)%Z then Raise ValueError
  else Ok (mkLoader dataset shuffle batch_size).

(** Sequencing of calls that may raise but touch nothing. *)
Definition and_then {A B} (o : outcome A) (k : A -> outcome B)
  : outcome B :=
  match o with
  | Ok a => k a
  | Raise e => Raise e
  end.

Record Loaders := mkLoaders {
  num_labels_of : list string;
  sst_train_dataloader : DataLoader;
  sst_dev_dataloader : DataLoader;
  para_train_dataloader : DataLoader;
  para_dev_dataloader : DataLoader;
  sts_train_dataloader : DataLoader;
  sts_dev_dataloader : DataLoader
}.

Definition train_loaders (args : Args) : outcome Loaders :=
  and_then (load_multitask_data (sst_train args) (para_train args)
                                (sts_train args) "train")
    (fun '(sst_train_data, _, para_train_data, sts_train_data) =>
  and_then (load_multitask_data (sst_dev args) (para_dev args)
                                (sts_dev args) "train")
    (fun '(sst_dev_data, num_labels, para_dev_data, sts_dev_data) =>
  let sst_train_data := SentenceClassificationDataset sst_train_data args in
  let sst_dev_data := SentenceClassificationDataset sst_dev_data args in
  and_then (new_DataLoader sst_train_data true (sst_batch_size args))
    (fun sst_train_dataloader =>
  and_then (new_DataLoader sst_dev_data false (sst_batch_size args))
    (fun sst_dev_dataloader =>
  let para_train_data := SentencePairDataset para_train_data args false in
  let para_dev_data := SentencePairDataset para_dev_data args false in
  and_then (new_DataLoader para_train_data true (para_batch_size args))
    (fun para_train_dataloader =>
  and_then (new_DataLoader para_dev_data true (para_batch_size args))
    (fun para_dev_dataloader =>
  let sts_train_data := SentencePairDataset sts_train_data args false in
  let sts_dev_data := SentencePairDataset sts_dev_data args false in
  and_then (new_DataLoader sts_train_data true (sts_batch_size args))
    (fun sts_train_dataloader =>
  and_then (new_DataLoader sts_dev_data true (sts_batch_size args))
    (fun sts_dev_dataloader =>
  Ok {| num_labels_of := num_labels;
        sst_train_dataloader := sst_train_dataloader;
        sst_dev_dataloader := sst_dev_dataloader;
        para_train_dataloader := para_train_dataloader;
        para_dev_dataloader := para_dev_dataloader;
        sts_train_dataloader := sts_train_dataloader;
        sts_dev_dataloader := sts_dev_dataloader |})))))))).

Definition train_config (args : Args) (L : Loaders) : Config :=
  {| hidden_dropout_prob := args_hidden_dropout_prob args;
     num_labels := num_labels_of L;
     hidden_size := 768;
     data_dir := ".";
     fine_tune_mode := args_fine_tune_mode args |}.

(** The forward pass and loss of each task on its batch, as the joint
    procedures compute them. *)
Definition pair_logits
    (predict : MultitaskBERT -> Tensor -> Tensor -> Tensor -> Tensor ->
               M Tensor)
    (model : MultitaskBERT) (batch : Batch) : M Tensor :=
  predict model (getitem batch "token_ids_1")
          (getitem batch "attention_mask_1")
          (getitem batch "token_ids_2")
          (getitem batch "attention_mask_2").

Definition three_losses (args : Args) (model : MultitaskBERT)
    (batch_sst batch_para batch_sts : Batch)
  : M (Tensor * Tensor * Tensor) :=
  logits_sst ← predict_sentiment model (getitem batch_sst "token_ids")
                 (getitem batch_sst "attention_mask");
  l1 ← call sst_loss [ATensor logits_sst;
                      ATensor (getitem batch_sst "labels"); AArgs args];
  logits_para ← pair_logits predict_paraphrase model batch_para;
  l2 ← call para_loss [ATensor logits_para;
                       ATensor (getitem batch_para "labels"); AArgs args];
  logits_sts ← pair_logits predict_similarity model batch_sts;
  l3 ← call sts_loss [ATensor logits_sts;
                      ATensor (getitem batch_sts "labels"); AArgs args];
  ret (l1, l2, l3).

(** The running state of an inner loop: model, optimizer, [train_loss]
    and [num_batches]. *)
Definition Inner : Type := MultitaskBERT * Optimizer * float * Z.

Definition three_batches (L : Loaders) : M (Batch * Batch * Batch) :=
  batch_sst ← next_iter (sst_train_dataloader L);
  batch_para ← next_iter (para_train_dataloader L);
  batch_sts ← next_iter (sts_train_dataloader L);
  ret (batch_sst, batch_para, batch_sts).

(** One iteration of [for i in tqdm(range(1000))] in [train_PCGrad]. *)
Definition step_PCGrad (args : Args) (L : Loaders) (s : Inner) : M Inner :=
  let '(model, optimizer, train_loss, num_batches) := s in
  '(batch_sst, batch_para, batch_sts) ← three_batches L;
  '(model, optimizer) ← invoke zero_grad (model, optimizer);
  '(l1, l2, l3) ← three_losses args model batch_sst batch_para batch_sts;
  let loss_sum := tensor_add (tensor_add l1 l2) l3 in
  let losses := [l1; l2; l3] in
  '(model, optimizer) ← invoke (pc_backward losses) (model, optimizer);
  '(model, optimizer) ← invoke step (model, optimizer);
  ret (model, optimizer, PyFloat.add train_loss (item loss_sum),
       (num_batches + 1)%Z).

(** One iteration of the same loop in [train_simultaneous]. *)
Definition step_simultaneous (args : Args) (L : Loaders) (s : Inner)
  : M Inner :=
  let '(model, optimizer, train_loss, num_batches) := s in
  '(batch_sst, batch_para, batch_sts) ← three_batches L;
  '(model, optimizer) ← invoke zero_grad (model, optimizer);
  '(l1, l2, l3) ← three_losses args model batch_sst batch_para batch_sts;
  let loss := tensor_add (tensor_add l1 l2) l3 in
  '(model, optimizer) ← invoke (backward loss) (model, optimizer);
  '(model, optimizer) ← invoke step (model, optimizer);
  ret (model, optimizer, PyFloat.add train_loss (item loss),
       (num_batches + 1)%Z).

(** *** Best-checkpoint selection and the epoch report *)

(** [if dev_acc > best_dev_acc: best_dev_acc = dev_acc; save_model(...)];
    the result is the new [best_dev_acc]. *)
Definition keep_best (model : MultitaskBERT) (optimizer : Optimizer)
    (args : Args) (config : Config) (dev_acc best_dev_acc : float)
  : M float :=
  if PyFloat.lt best_dev_acc dev_acc then
    save_model model optimizer args config (filepath args);;
    ret dev_acc
  else ret best_dev_acc.

Definition epoch_line (epoch : Z) (train_loss train_acc dev_acc : float)
  : string :=
  "Epoch " ++ str_int epoch ++ ": train loss :: " ++ fmt_3f train_loss
    ++ ", train acc :: " ++ fmt_3f train_acc
    ++ ", dev acc :: " ++ fmt_3f dev_acc.

(** *** [train_PCGrad] and [train_simultaneous]

    The two procedures are the same text up to the optimizer they build,
    the inner step, the banner, and the optimizer handed to
    [save_model] ([optimizer.optimizer] under PCGrad). *)

Record Evaluated := mkEvaluated {
  e_model : MultitaskBERT;
  e_optimizer : Optimizer;
  e_train_loss : float;
  e_train_acc : float;
  e_dev_acc : float
}.

(** [(a + b + c) / 3]. *)
Definition mean3 (a b c : float) : float :=
  PyFloat.div (PyFloat.add (PyFloat.add a b) c) (PyFloat.of_int 3).

Section Joint.
Variable make_optimizer : OptState -> Optimizer.
Variable step_fn : Args -> Loaders -> Inner -> M Inner.
Variable saved : Optimizer -> Optimizer.
Variable banner : string.

(** An epoch up to and including [dev_acc = (... + ... + ...)/3]. *)
Definition train_and_eval (args : Args) (L : Loaders)
    (model : MultitaskBERT) (optimizer : Optimizer) : M Evaluated :=
  '(model, optimizer) ← invoke train_mode (model, optimizer);
  '(model, optimizer, train_loss, num_batches) ←
    for_ (S := Inner) (range 1000) (fun _ => step_fn args L)
         (model, optimizer, PyFloat.of_int 0, 0%Z);
  train_loss ← true_div train_loss num_batches;
  '(train_acc, train_f1) ←
    sample (model_eval_sst (sst_train_dataloader L) model);
  '(dev_acc_sst, dev_f1) ←
    sample (model_eval_sst (sst_dev_dataloader L) model);
  '(dev_acc_para, dev_f1) ←
    sample (model_eval_para (para_dev_dataloader L) model);
  '(dev_acc_sts, def_f1) ←
    sample (model_eval_sts (sts_dev_dataloader L) model);
  let dev_acc := mean3 dev_acc_sst dev_acc_para dev_acc_sts in
  ret (mkEvaluated model optimizer train_loss train_acc dev_acc).

(** The rest of the epoch: checkpoint selection and the report. *)
Definition select_and_report (args : Args) (config : Config)
    (epoch : Z) (best_dev_acc : float) (e : Evaluated)
  : M (MultitaskBERT * Optimizer * float) :=
  best_dev_acc ← keep_best (e_model e) (saved (e_optimizer e)) args
                   config (e_dev_acc e) best_dev_acc;
  print (epoch_line epoch (e_train_loss e) (e_train_acc e)
                    (e_dev_acc e));;
  ret (e_model e, e_optimizer e, best_dev_acc).

(** The body of [for epoch in range(args.epochs)]. *)
Definition epoch_joint (args : Args) (L : Loaders) (config : Config)
    (epoch : Z) (s : MultitaskBERT * Optimizer * float)
  : M (MultitaskBERT * Optimizer * float) :=
  let '(model, optimizer, best_dev_acc) := s in
  e ← train_and_eval args L model optimizer;
  select_and_report args config epoch best_dev_acc e.

Definition train_joint (args : Args) : M unit :=
  L ← of_outcome (train_loaders args);
  let config := train_config args L in
  model ← construct config;
  model ← match model_path args with
          | Some path =>
              print "Loading previously trained model";;
              f ← torch_load path;
              of_outcome (load_state_dict model (OFile f))
          | None => ret model
          end;
  let optimizer :=
    make_optimizer (optim_init (parameters model) (lr args)) in
  let best_dev_acc := PyFloat.of_int 0 in
  print banner;;
  for_ (range (epochs args)) (epoch_joint args L config)
       (model, optimizer, best_dev_acc);;
  ret tt.
End Joint.

Definition train_PCGrad : Args -> M unit :=
  train_joint (fun st => PCGrad (Adam st)) step_PCGrad optimizer_of
              "Training with PCGrad".

Definition train_simultaneous : Args -> M unit :=
  train_joint AdamW step_simultaneous id "Training alltogether".

(** The states a joint training run passes through between epochs,
    each with the averaged dev metrics of the epochs completed so far,
    oldest first. *)
Inductive after_epochs
    (step_fn : Args -> Loaders -> Inner -> M Inner)
    (saved : Optimizer -> Optimizer)
    (args : Args) (L : Loaders) (config : Config)
    (model0 : MultitaskBERT) (optimizer0 : Optimizer) (w0 : World)
  : list float -> MultitaskBERT * Optimizer * float -> World -> Prop :=
| run_start :
    after_epochs step_fn saved args L config model0 optimizer0 w0
                 [] (model0, optimizer0, PyFloat.of_int 0) w0
| run_epoch devs model optimizer best_dev_acc w e w1 s' w' :
    after_epochs step_fn saved args L config model0 optimizer0 w0
                 devs (model, optimizer, best_dev_acc) w ->
    train_and_eval step_fn args L model optimizer w = (Ok e, w1) ->
    select_and_report saved args config (Z.of_nat (length devs))
                      best_dev_acc e w1 = (Ok s', w') ->
    after_epochs step_fn saved args L config model0 optimizer0 w0
                 (devs ++ [e_dev_acc e]) s' w'.

(** *** [train_multitask]: one task after the other *)

Definition UnboundLocalError : exn := PyExc "UnboundLocalError".

(** Loop state of a phase: model, optimizer, [best_dev_acc] and the
    last [train_acc] assigned, if any. *)
Definition Outer : Type :=
  MultitaskBERT * Optimizer * float * option float.

Definition step_sst (args : Args) (batch : Batch) (s : Inner) : M Inner :=
  let '(model, optimizer, train_loss, num_batches) := s in
  '(model, optimizer) ← invoke zero_grad (model, optimizer);
  logits ← predict_sentiment model (getitem batch "token_ids")
             (getitem batch "attention_mask");
  loss ← call sst_loss [ATensor logits; ATensor (getitem batch "labels");
                        AArgs args];
  '(model, optimizer) ← invoke (backward loss) (model, optimizer);
  '(model, optimizer) ← invoke step (model, optimizer);
  ret (model, optimizer, PyFloat.add train_loss (item loss),
       (num_batches + 1)%Z).

Definition step_para (args : Args) (L : Loaders) (s : Inner) : M Inner :=
  let '(model, optimizer, train_loss, num_batches) := s in
  batch ← next_iter (para_train_dataloader L);
  '(model, optimizer) ← invoke zero_grad (model, optimizer);
  logits ← pair_logits predict_paraphrase model batch;
  loss ← call para_loss [ATensor logits; ATensor (getitem batch "labels");
                         AArgs args];
  '(model, optimizer) ← invoke (backward loss) (model, optimizer);
  '(model, optimizer) ← invoke step (model, optimizer);
  ret (model, optimizer, PyFloat.add train_loss (item loss),
       (num_batches + 1)%Z).

(** The STS step passes two arguments to [sts_loss]. *)
Definition step_sts (args : Args) (batch : Batch) (s : Inner) : M Inner :=
  let '(model, optimizer, train_loss, num_batches) := s in
  '(model, optimizer) ← invoke zero_grad (model, optimizer);
  logits ← pair_logits predict_similarity model batch;
  loss ← call sts_loss [ATensor logits; ATensor (getitem batch "labels")];
  '(model, optimizer) ← invoke (backward loss) (model, optimizer);
  '(model, optimizer) ← invoke step (model, optimizer);
  ret (model, optimizer, PyFloat.add train_loss (item loss),
       (num_batches + 1)%Z).

Definition finish_epoch (args : Args) (config : Config) (epoch : Z)
    (model : MultitaskBERT) (optimizer : Optimizer)
    (train_loss : float) (train_acc : option float)
    (dev_acc best_dev_acc : float)
  : M Outer :=
  best_dev_acc ← keep_best model optimizer args config dev_acc
                   best_dev_acc;
  match train_acc with
  | Some acc =>
      print (epoch_line epoch train_loss acc dev_acc);;
      ret (model, optimizer, best_dev_acc, train_acc)
  | None => raise UnboundLocalError
  end.

Definition epoch_sst (args : Args) (L : Loaders) (config : Config)
    (epoch : Z) (s : Outer) : M Outer :=
  let '(model, optimizer, best_dev_acc, _) := s in
  '(model, optimizer) ← invoke train_mode (model, optimizer);
  batches ← sample (iterate (sst_train_dataloader L));
  '(model, optimizer, train_loss, num_batches) ←
    for_ (S := Inner) batches (step_sst args)
         (model, optimizer, PyFloat.of_int 0, 0%Z);
  train_loss ← true_div train_loss num_batches;
  '(train_acc, train_f1) ←
    sample (model_eval_sst (sst_train_dataloader L) model);
  '(dev_acc, dev_f1) ←
    sample (model_eval_sst (sst_dev_dataloader L) model);
  finish_epoch args config epoch model optimizer train_loss
               (Some train_acc) dev_acc best_dev_acc.

Definition epoch_para (args : Args) (L : Loaders) (config : Config)
    (epoch : Z) (s : Outer) : M Outer :=
  let '(model, optimizer, best_dev_acc, train_acc) := s in
  '(model, optimizer) ← invoke train_mode (model, optimizer);
  '(model, optimizer, train_loss, num_batches) ←
    for_ (S := Inner) (range 1000) (fun _ => step_para args L)
         (model, optimizer, PyFloat.of_int 0, 0%Z);
  train_loss ← true_div train_loss num_batches;
  '(dev_acc, dev_f1) ←
    sample (model_eval_para (para_dev_dataloader L) model);
  finish_epoch args config epoch model optimizer train_loss
               train_acc dev_acc best_dev_acc.

Definition epoch_sts (args : Args) (L : Loaders) (config : Config)
    (epoch : Z) (s : Outer) : M Outer :=
  let '(model, optimizer, best_dev_acc, _) := s in
  '(model, optimizer) ← invoke train_mode (model, optimizer);
  batches ← sample (iterate (sts_train_dataloader L));
  '(model, optimizer, train_loss, num_batches) ←
    for_ (S := Inner) batches (step_sts args)
         (model, optimizer, PyFloat.of_int 0, 0%Z);
  train_loss ← true_div train_loss num_batches;
  '(train_acc, train_f1) ←
    sample (model_eval_sts (sts_train_dataloader L) model);
  '(dev_acc, dev_f1) ←
    sample (model_eval_sts (sts_dev_dataloader L) model);
  finish_epoch args config epoch model optimizer train_loss
               (Some train_acc) dev_acc best_dev_acc.

(** One phase: a fresh [AdamW], [best_dev_acc = 0], the banner and the
    epoch loop. *)
Definition phase (banner : string)
    (epoch_fn : Args -> Loaders -> Config -> Z -> Outer -> M Outer)
    (args : Args) (L : Loaders) (config : Config)
    (model : MultitaskBERT) (train_acc : option float)
  : M (MultitaskBERT * option float) :=
  let optimizer := AdamW (optim_init (parameters model) (lr args)) in
  let best_dev_acc := PyFloat.of_int 0 in
  print banner;;
  '(model, _, _, train_acc) ←
    for_ (S := Outer) (range (epochs args)) (epoch_fn args L config)
         (model, optimizer, best_dev_acc, train_acc);
  ret (model, train_acc).

Definition sst_phase := phase "Training sentiment analysis" epoch_sst.
Definition para_phase := phase "Training paraphrase" epoch_para.
Definition sts_phase := phase "Training STS" epoch_sts.

Definition train_multitask (args : Args) : M unit :=
  L ← of_outcome (train_loaders args);
  let config := train_config args L in
  model ← construct config;
  model ← match model_path args with
          | Some path =>
              print "Loading previously trained model";;
              saved_model ← torch_load path;
              sd ← subscript saved_model "model";
              of_outcome (load_state_dict model (OValue sd))
          | None => ret model
          end;
  '(model, train_acc) ← sst_phase args L config model None;
  '(model, train_acc) ← para_phase args L config model train_acc;
  sts_phase args L config model train_acc;;
  ret tt.

(** *** [test_multitask] *)

Definition tab : string := String "009"%char "".
Definition newline : string := String "010"%char "".

(** [f"id \t Predicted_<task> \n"]. *)
Definition header_line (task : string) : string :=
  "id " ++ tab ++ " Predicted_" ++ task ++ " " ++ newline.

(** [f"{p} , {s} \n"]. *)
Definition row_line (p : string) (s : Pred) : string :=
  p ++ " , " ++ str_pred s ++ " " ++ newline.

(** What one [with open(path, "w+") as f] block writes: the header,
    then a row for each pair of [zip(sent_ids, y_pred)]. *)
Definition prediction_text (task : string) (sent_ids : list string)
    (y_pred : list Pred) : string :=
  String.concat ""
    (header_line task
       :: map (fun ps => row_line ps.1 ps.2) (zip sent_ids y_pred)).

Definition write_predictions (path task : string)
    (sent_ids : list string) (y_pred : list Pred) : M unit :=
  write_file path (Text (prediction_text task sent_ids y_pred)).

Definition as_config (v : Value) : M Config :=
  match v with
  | VConfig c => ret c
  | _ => raise AttributeError
  end.

(** The six loaders of [test_multitask]. *)
Record TestLoaders := mkTestLoaders {
  sst_test_loader : DataLoader;
  sst_dev_loader : DataLoader;
  para_test_loader : DataLoader;
  para_dev_loader : DataLoader;
  sts_test_loader : DataLoader;
  sts_dev_loader : DataLoader
}.

Definition test_loaders (args : Args) : outcome TestLoaders :=
  and_then (load_multitask_data (sst_test args) (para_test args)
                                (sts_test args) "test")
    (fun '(sst_test_data, _, para_test_data, sts_test_data) =>
  and_then (load_multitask_data (sst_dev args) (para_dev args)
                                (sts_dev args) "dev")
    (fun '(sst_dev_data, num_labels, para_dev_data, sts_dev_data) =>
  let sst_test_data := SentenceClassificationTestDataset sst_test_data args in
  let sst_dev_data := SentenceClassificationDataset sst_dev_data args in
  and_then (new_DataLoader sst_test_data true (sst_batch_size args))
    (fun sst_test_dataloader =>
  and_then (new_DataLoader sst_dev_data false (sst_batch_size args))
    (fun sst_dev_dataloader =>
  let para_test_data := SentencePairTestDataset para_test_data args in
  let para_dev_data := SentencePairDataset para_dev_data args false in
  and_then (new_DataLoader para_test_data true (para_batch_size args))
    (fun para_test_dataloader =>
  and_then (new_DataLoader para_dev_data false (para_batch_size args))
    (fun para_dev_dataloader =>
  let sts_test_data := SentencePairTestDataset sts_test_data args in
  let sts_dev_data := SentencePairDataset sts_dev_data args true in
  and_then (new_DataLoader sts_test_data true (sts_batch_size args))
    (fun sts_test_dataloader =>
  and_then (new_DataLoader sts_dev_data false (sts_batch_size args))
    (fun sts_dev_dataloader =>
  Ok {| sst_test_loader := sst_test_dataloader;
        sst_dev_loader := sst_dev_dataloader;
        para_test_loader := para_test_dataloader;
        para_dev_loader := para_dev_dataloader;
        sts_test_loader := sts_test_dataloader;
        sts_dev_loader := sts_dev_dataloader |})))))))).

Definition test_multitask (args : Args) : M unit :=
  saved ← torch_load (filepath args);
  v ← subscript saved "model_config";
  config ← as_config v;
  model ← construct config;
  sd ← subscript saved "model";
  model ← of_outcome (load_state_dict model (OValue sd));
  print ("Loaded model to test from " ++ filepath args);;
  TL ← of_outcome (test_loaders args);
  dev ← sample (model_eval_multitask (sst_dev_loader TL)
                  (para_dev_loader TL) (sts_dev_loader TL) model);
  test ← sample (model_eval_test_multitask (sst_test_loader TL)
                   (para_test_loader TL) (sts_test_loader TL) model);
  print ("dev sentiment acc :: " ++ fmt_3f (dev_sentiment_accuracy dev));;
  write_predictions (sst_dev_out args) "Sentiment"
                    (dev_sst_sent_ids dev) (dev_sst_y_pred dev);;
  write_predictions (sst_test_out args) "Sentiment"
                    (test_sst_sent_ids test) (test_sst_y_pred test);;
  print ("dev paraphrase acc :: "
           ++ fmt_3f (dev_paraphrase_accuracy dev));;
  write_predictions (para_dev_out args) "Is_Paraphrase"
                    (dev_para_sent_ids dev) (dev_para_y_pred dev);;
  write_predictions (para_test_out args) "Is_Paraphrase"
                    (test_para_sent_ids test) (test_para_y_pred test);;
  print ("dev sts corr :: " ++ fmt_3f (dev_sts_corr dev));;
  write_predictions (sts_dev_out args) "Similiary"
                    (dev_sts_sent_ids dev) (dev_sts_y_pred dev);;
  write_predictions (sts_test_out args) "Similiary"
                    (test_sts_sent_ids test) (test_sts_y_pred test).

(** *** The main block *)

(** [random.seed] takes any [int]; [np.random.seed] raises [ValueError]
    unless the seed is between 0 and 2**32 - 1, and then the torch
    generator is not reached. *)
Definition seed_everything (seed : Z) : M unit :=
  fun w =>
    let seeded := mkRngs (random_seed seed) (numpy_rng (rng w))
                         (torch_rng (rng w)) in
    if bool_decide (0 <= seed < 2 ^ 32)%Z
    then (Ok tt, set_rng (mkRngs (random_seed seed) (np_random_seed seed)
                                 (torch_manual_seed seed)) w)
    else (Raise ValueError, set_rng seeded w).

Definition default_filepath (args : Args) : string :=
  file_prefix args ++ args_fine_tune_mode args ++ "-"
    ++ str_int (epochs args) ++ "-" ++ str_float (lr args)
    ++ "-multitask.pt".

(** The [if]/[elif] chain on [args.train_type]. *)
Definition run_training (args : Args) : M unit :=
  match train_type args with
  | None => train_multitask args
  | Some t =>
      if String.eqb t "simultaneous" then train_simultaneous args
      else if String.eqb t "pcgrad" then train_PCGrad args
      else print "Not training"
  end.

Definition main (args : Args) : M unit :=
  let args :=
    match model_path args with
    | Some path => set_filepath args path
    | None => set_filepath args (default_filepath args)
    end in
  seed_everything (seed args);;
  run_training args;;
  test_multitask args.

(** *** What the statements below observe *)

(** [keeps proj c]: running [c] never changes the component [proj] of
    the world, whether [c] returns or raises. *)
Definition keeps {X A : Type} (proj : World -> X) (c : M A) : Prop :=
  forall w, proj (c w).2 = proj w.

(** What a run appended to the record of calls, and to the output. *)
Definition new_calls (w w' : World) : list Call :=
  drop (length (calls w)) (calls w').

Definition new_stdout (w w' : World) : list string :=
  drop (length (stdout w)) (stdout w').

(** The keys of a checkpoint dictionary. *)
Definition checkpoint_keys : gset string :=
  list_to_set ["model"; "optim"; "args"; "model_config";
               "system_rng"; "numpy_rng"; "torch_rng"].

(** The six files [test_multitask] writes, in program order. *)
Definition prediction_files (args : Args) (dev : DevEval)
    (test : TestEval) : list (string * string) :=
  [(sst_dev_out args,
    prediction_text "Sentiment" (dev_sst_sent_ids dev)
                    (dev_sst_y_pred dev));
   (sst_test_out args,
    prediction_text "Sentiment" (test_sst_sent_ids test)
                    (test_sst_y_pred test));
   (para_dev_out args,
    prediction_text "Is_Paraphrase" (dev_para_sent_ids dev)
                    (dev_para_y_pred dev));
   (para_test_out args,
    prediction_text "Is_Paraphrase" (test_para_sent_ids test)
                    (test_para_y_pred test));
   (sts_dev_out args,
    prediction_text "Similiary" (dev_sts_sent_ids dev)
                    (dev_sts_y_pred dev));
   (sts_test_out args,
    prediction_text "Similiary" (test_sts_sent_ids test)
                    (test_sts_y_pred test))].

Definition write_all (files : list (string * string))
    (d : gmap string File) : gmap string File :=
  foldl (fun d pf => <[pf.1 := Text pf.2]> d) d files.

End Program.

End Driver.

(* ================================================================== *)
(** ** Gradient surgery *)
(* ================================================================== *)

Module Surgery.

(** A task gradient, flattened over all parameters in canonical order;
    its components are read as exact rationals. *)
Definition Grad := list Qc.

Definition dot (a b : Grad) : Qc := foldr Qcplus 0 (zip_with Qcmult a b).
Definition norm2 (g : Grad) : Qc := dot g g.
Definition scale (c : Qc) (g : Grad) : Grad := map (Qcmult c) g.
Definition sub (a b : Grad) : Grad := zip_with Qcminus a b.
Definition add (a b : Grad) : Grad := zip_with Qcplus a b.

Definition ConfigurationError : exn := PyExc "ConfigurationError".
Definition NumericalError : exn := PyExc "NumericalError".

(** Modelled from the spec: the projection formula of the gradient-surgery
    optimizer, whose source ([pcgrad.py]) is not among the files at hand:
    [pg_i - (dot(pg_i, g_j) / ||g_j||^2) * g_j]. *)
Definition projection (pg g : Grad) : Grad :=
  sub pg (scale (dot pg g / norm2 g) g).

(** Modelled from the spec: a projection step. The division is the one
    the spec guards: a zero-norm [g_j] is the degenerate case that fails
    with [NumericalError]. *)
Definition project (pg g : Grad) : outcome Grad :=
  if bool_decide (norm2 g = 0) then Raise NumericalError
  else Ok (projection pg g).

(** What a pairwise step reports besides the gradient. *)
Inductive Note := skipped_zero_norm.

(** Modelled from the spec: the pairwise step of
    [compute_combined_gradients] (step 3 and the error policy of section
    4.1). A zero-norm [g_j] is the degenerate case: its [NumericalError]
    is recovered locally, the pair is skipped and logged. Otherwise the
    projection, against the original [g_j], happens only when the dot
    product is negative. *)
Definition pair_step (pg g : Grad) : outcome (Grad * list Note) :=
  if bool_decide (norm2 g = 0) then Ok (pg, [skipped_zero_norm])
  else if bool_decide (dot pg g < 0) then
    match project pg g with
    | Ok pg' => Ok (pg', [])
    | Raise e => Raise e
    end
  else Ok (pg, []).

(** All ordered pairs [(i, j)] with [i <> j] below [n]. *)
Definition all_pairs (n : nat) : list (nat * nat) :=
  filter (fun ij => ij.1 <> ij.2)
         (i ← seq 0 n; (fun j => (i, j)) <$> seq 0 n).

(** Modelled from the spec: one step of the sweep over the ordered pairs;
    [gs] are the original gradients, the state holds the projected ones
    and the log. *)
Definition sweep_step (gs : list Grad) (st : list Grad * list Note)
    (ij : nat * nat) : outcome (list Grad * list Note) :=
  match st.1 !! ij.1, gs !! ij.2 with
  | Some pg, Some g =>
      match pair_step pg g with
      | Ok (pg', notes) => Ok (<[ij.1 := pg']> st.1, (st.2 ++ notes)%list)
      | Raise e => Raise e
      end
  | _, _ => Ok st
  end.

Fixpoint sweep (gs : list Grad) (order : list (nat * nat))
    (st : list Grad * list Note) : outcome (list Grad * list Note) :=
  match order with
  | [] => Ok st
  | ij :: rest =>
      match sweep_step gs st ij with
      | Ok st' => sweep gs rest st'
      | Raise e => Raise e
      end
  end.

(** Modelled from the spec: [compute_combined_gradients] from the
    per-task gradients [gs] (step 1 is the backward passes that produce
    them) and the randomized order of the pairs. *)
Definition compute_combined_gradients (gs : list Grad)
    (shuffle : list (nat * nat) -> list (nat * nat))
  : outcome (Grad * list Note) :=
  match gs with
  | [] => Raise ConfigurationError
  | g0 :: _ =>
      if bool_decide (Forall (fun g => length g = length g0) gs) then
        match sweep gs (shuffle (all_pairs (length gs))) (gs, []) with
        | Ok (pgs, notes) =>
            Ok (foldr add (replicate (length g0) 0) pgs, notes)
        | Raise e => Raise e
        end
      else Raise ConfigurationError
  end.

End Surgery.

(* ================================================================== *)
(** ** The submission script: [prepare_submit.py] *)
(* ================================================================== *)

Module Submit.

(** [s.endswith(suffix)]. *)
Definition endswith (s suffix : string) : bool :=
  bool_decide (String.list_ascii_of_string suffix
                 `suffix_of` String.list_ascii_of_string s).

(** [os.path.join(".", file)]. *)
Definition join_dot (file : string) : string :=
  if String.prefix "/" file then file else "./" ++ file.

(** The directories the script lists: the working directory, and
    [predictions] if it exists. *)
Record Dirs := mkDirs {
  cwd : list string;
  predictions : option (list string)
}.

Definition FileNotFoundError : exn := PyExc "FileNotFoundError".

(** The module-level [required_files]. *)
Definition required_files (d : Dirs) : outcome (list string) :=
  let py := filter (fun p => endswith p ".py" = true) (cwd d) in
  match predictions d with
  | Some ps => Ok (py ++ map (String.append "predictions/") ps)%list
  | None => Raise FileNotFoundError
  end.

(** A zip archive as the script writes it: its file name and, in order,
    the files added with the archive names given to [zz.write]. *)
Record Zip := mkZip {
  zip_name : string;
  members : list (string * string)
}.

(** [main(args)], with [args.file_suffix]; the result is the archive and
    the line printed. *)
Definition main (required : list string) (file_suffix : string)
  : Zip * string :=
  let aid := "cs224n_default_final_project_submission" ++ file_suffix in
  (mkZip (aid ++ ".zip") (map (fun file => (file, join_dot file)) required),
   "Submission zip file created: " ++ aid ++ ".zip").

(** The script: import, then [main(get_args())]. *)
Definition script (d : Dirs) (file_suffix : string)
  : outcome (Zip * string) :=
  match required_files d with
  | Ok required => Ok (main required file_suffix)
  | Raise e => Raise e
  end.

End Submit.

(* ================================================================== *)
(** ** Shapes of traces and paths the driver's further facts speak of *)
(* ================================================================== *)

Module Observe.
Import Bert Driver.

Section Shapes.
Context `{C : Collab} {O : @Ops C}.

(** The inner step of a joint procedure: [train_PCGrad]'s or
    [train_simultaneous]'s. *)
Definition joint_step (pcgrad : bool) : Args -> Loaders -> Inner -> M Inner :=
  if pcgrad then step_PCGrad else step_simultaneous.

(** [l1 + l2 + l3] on the three loss tensors. *)
Definition loss_sum (l : Tensor * Tensor * Tensor) : Tensor :=
  let '(l1, l2, l3) := l in tensor_add (tensor_add l1 l2) l3.

(** The calls of one joint step whose per-task losses are [l]. *)
Definition joint_step_calls (pcgrad : bool) (l : Tensor * Tensor * Tensor)
  : list Call :=
  let '(l1, l2, l3) := l in
  [zero_grad;
   if pcgrad then pc_backward [l1; l2; l3]
   else backward (tensor_add (tensor_add l1 l2) l3);
   step].

(** The calls of one single-task step with loss [l]. *)
Definition single_step_calls (l : Tensor) : list Call :=
  [zero_grad; backward l; step].

(** [args.filepath] as the main block sets it. *)
Definition chosen_filepath (args : Args) : string :=
  match model_path args with
  | Some path => path
  | None => default_filepath args
  end.

(** The six output paths, in the order [test_multitask] writes them. *)
Definition out_paths (args : Args) : list string :=
  [sst_dev_out args; sst_test_out args; para_dev_out args;
   para_test_out args; sts_dev_out args; sts_test_out args].

End Shapes.

End Observe.

(* ================================================================== *)
(** ** A small closed instance, for running the driver *)
(* ================================================================== *)

Module Demo.
Import Bert Driver.

(** [a / b] for two ints: the float nearest to the quotient. *)
Definition ratio (a b : Z) : float :=
  PyFloat.div (PyFloat.of_int a) (PyFloat.of_int b).

Definition half : float := ratio 1 2.

(** A tensor is its size, a batch and a data set their number of
    examples; the numpy generator counts the epochs evaluated, the
    torch generator the tensors drawn. *)
#[local] Instance collab : Collab := {
  Tensor := list nat; Batch := nat; Dataset := nat; Pred := string;
  OptState := unit; OptimDict := unit;
  SysRng := Z; NpRng := nat; TorchRng := Z
}.

Definition dev : DevEval :=
  mkDevEval half ["3"; "1"] ["s0"; "s1"]
            half ["1"] ["p0"]
            half ["2.5"] ["t0"].

Definition test : TestEval :=
  mkTestEval ["4"] ["s9"] ["0"] ["p9"] ["0.5"] ["t9"].

(** The dev metrics of the epochs: sentiment, paraphrase, similarity. *)
Definition metrics (epoch : nat) : float * float * float :=
  match epoch with
  | 1%nat => (ratio 1 10, ratio 2 10, ratio 3 10)
  | _ => (ratio 3 10, ratio 2 10, ratio 1 10)
  end.

Definition next_epoch (r : Rngs) : Rngs :=
  mkRngs (system_rng r) (S (numpy_rng r)) (torch_rng r).

(** The number of examples in a file. *)
Definition examples (file : string) : nat :=
  if String.eqb file "data/empty.csv" then 0
  else if String.eqb file "data/one-pair.csv" then 1
  else 2.

#[local] Instance ops : @Ops collab := {
  load_multitask_data sst para sts _ :=
    Ok (examples sst, ["0"; "1"; "2"; "3"; "4"], examples para,
        examples sts);
  SentenceClassificationDataset d _ := d;
  SentenceClassificationTestDataset d _ := d;
  SentencePairDataset d _ _ := d;
  SentencePairTestDataset d _ := d;
  dataset_len d := d;
  iterate l r := ([Nat.min (Z.to_nat (batch_size l)) (dataset l)], r);
  getitem b key := if String.eqb key "labels" then [b] else [b; 16%nat];
  from_pretrained := [mkParam "bert.embedding" [16%nat; 768%nat] None true;
                      mkParam "bert.pooler" [768%nat; 768%nat] None false];
  initial_tensor _ size t := (size, (t + 1)%Z);
  bert_forward _ input_ids _ r := ([hd 0%nat input_ids; 768%nat], r);
  dropout _ x r := (x, r);
  apply_layer l xs := [hd 0%nat (hd [] xs); out_features l];
  load_state_dict m _ := Ok m;
  shape x := x;
  cross_entropy_sum _ _ := [];
  binary_cross_entropy_sum _ _ := [];
  cosine_distance_sum _ _ := [];
  tensor_div x _ := x;
  tensor_add x _ := x;
  item _ := PyFloat.of_int 1;
  optim_init _ _ := tt;
  optim_state_dict _ := tt;
  effect _ t := t;
  model_eval_sst _ _ r := (((metrics (numpy_rng r)).1.1, half), r);
  model_eval_para _ _ r := (((metrics (numpy_rng r)).1.2, half), r);
  model_eval_sts _ _ r := (((metrics (numpy_rng r)).2, half), next_epoch r);
  model_eval_multitask _ _ _ _ r := (dev, r);
  model_eval_test_multitask _ _ _ _ r := (test, r);
  random_seed z := z;
  np_random_seed _ := 0%nat;
  torch_manual_seed z := z;
  str_pred s := s;
  str_int z := pretty z;
  str_float _ := "1e-05";
  fmt_3f _ := "0.500"
}.

Definition args : Args :=
  {| sst_train := "data/ids-sst-train.csv";
     sst_dev := "data/ids-sst-dev.csv";
     sst_test := "data/ids-sst-test-student.csv";
     para_train := "data/quora-train.csv";
     para_dev := "data/quora-dev.csv";
     para_test := "data/quora-test-student.csv";
     sts_train := "data/sts-train.csv";
     sts_dev := "data/sts-dev.csv";
     sts_test := "data/sts-test-student.csv";
     seed := 11711; epochs := 1;
     args_fine_tune_mode := "last-linear-layer";
     use_gpu := false;
     sst_dev_out := "predictions/sst-dev-output.csv";
     sst_test_out := "predictions/sst-test-output.csv";
     para_dev_out := "predictions/para-dev-output.csv";
     para_test_out := "predictions/para-test-output.csv";
     sts_dev_out := "predictions/sts-dev-output.csv";
     sts_test_out := "predictions/sts-test-output.csv";
     sst_batch_size := 8; para_batch_size := 64; sts_batch_size := 8;
     args_hidden_dropout_prob := ratio 3 10;
     lr := ratio 1 100000;
     model_path := None;
     file_prefix := "";
     train_type := Some "none";
     filepath := "last-linear-layer-1-1e-05-multitask.pt" |}.

(** [args] with another mode and number of epochs. *)
Definition args_with (mode : string) (n : Z) : Args :=
  mkArgs (sst_train args) (sst_dev args) (sst_test args)
         (para_train args) (para_dev args) (para_test args)
         (sts_train args) (sts_dev args) (sts_test args)
         (seed args) n mode (use_gpu args)
         (sst_dev_out args) (sst_test_out args)
         (para_dev_out args) (para_test_out args)
         (sts_dev_out args) (sts_test_out args)
         (sst_batch_size args) (para_batch_size args)
         (sts_batch_size args)
         (args_hidden_dropout_prob args) (lr args)
         (model_path args) (file_prefix args)
         (train_type args) (filepath args).

(** [args] with another mode and sentiment batch size. *)
Definition args_batch (mode : string) (n : Z) : Args :=
  mkArgs (sst_train args) (sst_dev args) (sst_test args)
         (para_train args) (para_dev args) (para_test args)
         (sts_train args) (sts_dev args) (sts_test args)
         (seed args) (epochs args) mode (use_gpu args)
         (sst_dev_out args) (sst_test_out args)
         (para_dev_out args) (para_test_out args)
         (sts_dev_out args) (sts_test_out args)
         n (para_batch_size args) (sts_batch_size args)
         (args_hidden_dropout_prob args) (lr args)
         (model_path args) (file_prefix args)
         (train_type args) (filepath args).

(** [args] with other training files for sentiment and paraphrase. *)
Definition args_files (sst para : string) : Args :=
  mkArgs sst (sst_dev args) (sst_test args)
         para (para_dev args) (para_test args)
         (sts_train args) (sts_dev args) (sts_test args)
         (seed args) (epochs args) (args_fine_tune_mode args) (use_gpu args)
         (sst_dev_out args) (sst_test_out args)
         (para_dev_out args) (para_test_out args)
         (sts_dev_out args) (sts_test_out args)
         (sst_batch_size args) (para_batch_size args)
         (sts_batch_size args)
         (args_hidden_dropout_prob args) (lr args)
         (model_path args) (file_prefix args)
         (train_type args) (filepath args).

(** [args] with another seed. *)
Definition args_seeded (n : Z) : Args :=
  mkArgs (sst_train args) (sst_dev args) (sst_test args)
         (para_train args) (para_dev args) (para_test args)
         (sts_train args) (sts_dev args) (sts_test args)
         n (epochs args) (args_fine_tune_mode args) (use_gpu args)
         (sst_dev_out args) (sst_test_out args)
         (para_dev_out args) (para_test_out args)
         (sts_dev_out args) (sts_test_out args)
         (sst_batch_size args) (para_batch_size args)
         (sts_batch_size args)
         (args_hidden_dropout_prob args) (lr args)
         (model_path args) (file_prefix args)
         (train_type args) (filepath args).

Definition loader : DataLoader := mkLoader 2%nat true 8.

Definition loaders_of (a : Args) : Loaders :=
  match train_loaders a with
  | Ok L => L
  | Raise _ => mkLoaders [] loader loader loader loader loader loader
  end.

Definition loaders : Loaders := loaders_of args.

Definition config : Config := train_config args loaders.

Definition bad_config : Config :=
  mkConfig (ratio 3 10) ["0"; "1"] 768 "." "first-layer".

Definition rngs0 : Rngs :=
  @mkRngs collab 11711%Z 0%nat 11711%Z.

Definition model : MultitaskBERT Tensor :=
  match Bert.init initial_tensor from_pretrained config (torch_rng rngs0)
  with
  | (Ok m, _) => m
  | (Raise _, _) =>
      let l := mkLayer [] 0 (mkParam "" [] None true)
                       (mkParam "" [] None true) in
      mkModel [] half l l l
  end.

Definition pcgrad_adam : Optimizer := PCGrad (Adam tt).
Definition adamw : Optimizer := AdamW tt.

Definition world0 : World := mkWorld rngs0 ∅ [] [].

(** A world in which a checkpoint has been saved at [args.filepath]. *)
Definition world1 : World :=
  (save_model model adamw args config (filepath args) world0).2.

(** A world whose checkpoint at [args.filepath] has a config but no
    model state. *)
Definition world_without_model : World :=
  set_disk (<[filepath args :=
                Pickle {["model_config" := VConfig config]}]> ∅) world0.

(** A working directory with sources, data and a checkpoint, and two
    prediction files. *)
Definition dirs : Submit.Dirs :=
  Submit.mkDirs ["multitask_classifier.py"; "bert.py"; "data";
                 "predictions"; "full-model-10-1e-05-multitask.pt"]
                (Some ["sst-dev-output.csv"; "sts-test-output.csv"]).

End Demo.

(* ================================================================== *)
(** ** The order on floats *)
(* ================================================================== *)

Module PyFloatSpec.

(** The order on the pairs of an exponent and a mantissa. *)
Lemma lex_lt (e1 e2 : Z) (m1 m2 : positive) :
  match (e1 ?= e2)%Z with
  | Lt => Lt
  | Gt => Gt
  | Eq => Pos.compare_cont Eq m1 m2
  end = Lt
  <-> (e1 < e2)%Z \/ (e1 = e2 /\ (m1 < m2)%positive).
Proof.
  change (Pos.compare_cont Eq m1 m2) with (m1 ?= m2)%positive.
  destruct (Z.compare_spec e1 e2) as [->|H|H].
  - rewrite Pos.compare_lt_iff. split; [by right|].
    intros [?|[_ ?]]; [lia|done].
  - split; [by left|done].
  - split; [done|]. intros [?|[? _]]; lia.
Qed.

Lemma lex_gt (e1 e2 : Z) (m1 m2 : positive) :
  match (e1 ?= e2)%Z with
  | Lt => Gt
  | Gt => Lt
  | Eq => CompOpp (Pos.compare_cont Eq m1 m2)
  end = Lt
  <-> (e2 < e1)%Z \/ (e1 = e2 /\ (m2 < m1)%positive).
Proof.
  change (Pos.compare_cont Eq m1 m2) with (m1 ?= m2)%positive.
  destruct (Z.compare_spec e1 e2) as [->|H|H].
  - rewrite <- Pos.compare_antisym, Pos.compare_lt_iff. split; [by right|].
    intros [?|[_ ?]]; [lia|done].
  - split; [done|]. intros [?|[? _]]; lia.
  - split; [by left|done].
Qed.

(** [x < x] is false, also for a NaN. *)
Lemma lt_irrefl (x : PyFloat.float) : PyFloat.lt x x = false.
Proof.
  unfold PyFloat.lt, SFltb, SFcompare.
  destruct x as [s|s| |s m e]; [by destruct s|by destruct s|done|].
  destruct s.
  - destruct (match (e ?= e)%Z with Lt => Gt | Gt => Lt
              | Eq => CompOpp (Pos.compare_cont Eq m m) end) eqn:H;
      try done.
    apply lex_gt in H. lia.
  - destruct (match (e ?= e)%Z with Lt => Lt | Gt => Gt
              | Eq => Pos.compare_cont Eq m m end) eqn:H; try done.
    apply lex_lt in H. lia.
Qed.

Lemma lt_finite s1 m1 e1 s2 m2 e2 :
  PyFloat.lt (S754_finite s1 m1 e1) (S754_finite s2 m2 e2) = true
  <-> match s1, s2 with
      | true, false => True
      | false, true => False
      | false, false => (e1 < e2)%Z \/ (e1 = e2 /\ (m1 < m2)%positive)
      | true, true => (e2 < e1)%Z \/ (e1 = e2 /\ (m2 < m1)%positive)
      end.
Proof.
  unfold PyFloat.lt, SFltb, SFcompare. destruct s1, s2; try done.
  - rewrite <- lex_gt.
    destruct (match (e1 ?= e2)%Z with Lt => Gt | Gt => Lt
              | Eq => CompOpp (Pos.compare_cont Eq m1 m2) end); done.
  - rewrite <- lex_lt.
    destruct (match (e1 ?= e2)%Z with Lt => Lt | Gt => Gt
              | Eq => Pos.compare_cont Eq m1 m2 end); done.
Qed.

(** [<] is transitive on all floats. *)
Lemma lt_trans (x y z : PyFloat.float) :
  PyFloat.lt x y = true -> PyFloat.lt y z = true -> PyFloat.lt x z = true.
Proof.
  destruct x as [sx|sx| |sx mx ex], y as [sy|sy| |sy my ey],
    z as [sz|sz| |sz mz ez];
    try (rewrite !lt_finite; destruct sx, sy, sz; lia);
    try (destruct sx); try (destruct sy); try (destruct sz); done.
Qed.

End PyFloatSpec.

(* ================================================================== *)
(** ** Model construction *)
(* ================================================================== *)

Module BertSpec.
Import Bert.

Section Init.
Context {T R : Type}.
Variable initial : string -> list nat -> R -> T * R.

Lemma requires_grad_set b (p : Param T) :
  requires_grad (set_requires_grad b p) = b.
Proof. reflexivity. Qed.

Lemma fine_tune_frozen (p : Param T) :
  requires_grad (fine_tune "last-linear-layer" p) = false.
Proof. reflexivity. Qed.

Lemma fine_tune_full (p : Param T) :
  requires_grad (fine_tune "full-model" p) = true.
Proof. reflexivity. Qed.

(** Freezing or unfreezing touches nothing but the flag. *)
Lemma fine_tune_keeps mode (p : Param T) :
  pname (fine_tune mode p) = pname p
  /\ pdata (fine_tune mode p) = pdata p
  /\ grad (fine_tune mode p) = grad p.
Proof.
  unfold fine_tune.
  destruct (String.eqb mode "last-linear-layer"); [done|].
  destruct (String.eqb mode "full-model"); done.
Qed.

Lemma fresh_trainable name shape r :
  requires_grad (fresh initial name shape r).1 = true.
Proof. unfold fresh. by destruct (initial name shape r). Qed.

Lemma Linear_trainable name i o r :
  Forall (fun p => requires_grad p = true)
         (layer_parameters (Linear initial name i o r).1).
Proof.
  unfold Linear, layer_parameters.
  pose proof (fresh_trainable (name ++ ".weight") [o; i] r) as Hw.
  destruct (fresh initial (name ++ ".weight") [o; i] r) as [w r1].
  pose proof (fresh_trainable (name ++ ".bias") [o] r1) as Hb.
  destruct (fresh initial (name ++ ".bias") [o] r1) as [b r2].
  simpl in *. by repeat constructor.
Qed.

Lemma Bilinear_trainable name i1 i2 o r :
  Forall (fun p => requires_grad p = true)
         (layer_parameters (Bilinear initial name i1 i2 o r).1).
Proof.
  unfold Bilinear, layer_parameters.
  pose proof (fresh_trainable (name ++ ".weight") [o; i1; i2] r) as Hw.
  destruct (fresh initial (name ++ ".weight") [o; i1; i2] r) as [w r1].
  pose proof (fresh_trainable (name ++ ".bias") [o] r1) as Hb.
  destruct (fresh initial (name ++ ".bias") [o] r1) as [b r2].
  simpl in *. by repeat constructor.
Qed.

(** A construction that returns was given a valid mode and an accepted
    dropout probability; the backbone is the pretrained one with the
    flags of the mode, and the heads are trainable. *)
Lemma init_returned pretrained config r (m : MultitaskBERT T) r' :
  init initial pretrained config r = (Ok m, r') ->
  fine_tune_mode config ∈ valid_modes
  /\ out_of_range (hidden_dropout_prob config) = false
  /\ bert m = map (fine_tune (fine_tune_mode config)) pretrained
  /\ Forall (fun p => requires_grad p = true) (head_parameters m).
Proof.
  unfold init, Dropout. case_bool_decide as Hmode; [|done].
  destruct (out_of_range (hidden_dropout_prob config)); [done|].
  pose proof (Linear_trainable "last_sentiment" (hidden_size config)
                (length (num_labels config)) r) as H1.
  destruct (Linear initial "last_sentiment" _ _ r) as [l1 r1].
  pose proof (Bilinear_trainable "last_para" (hidden_size config)
                (hidden_size config) 1 r1) as H2.
  destruct (Bilinear initial "last_para" _ _ _ r1) as [l2 r2].
  pose proof (Bilinear_trainable "last_similar" (hidden_size config)
                (hidden_size config) 1 r2) as H3.
  destruct (Bilinear initial "last_similar" _ _ _ r2) as [l3 r3].
  intros [= <- <-]. repeat split; [done|].
  unfold head_parameters.
  cbn [last_sentiment last_para last_similar].
  apply Forall_app. split; [done|]. apply Forall_app. by split.
Qed.

(** With a valid mode, the constructor returns exactly when [Dropout]
    accepts the probability; otherwise it raises [ValueError] and has
    drawn nothing. *)
Lemma init_valid_mode pretrained config r :
  fine_tune_mode config ∈ valid_modes ->
  if out_of_range (hidden_dropout_prob config)
  then init initial pretrained config r = (Raise ValueError, r)
  else exists (m : MultitaskBERT T) r',
      init initial pretrained config r = (Ok m, r').
Proof.
  intros Hmode. unfold init, Dropout.
  rewrite bool_decide_eq_true_2 by done.
  destruct (out_of_range (hidden_dropout_prob config)); [done|].
  destruct (Linear initial "last_sentiment" _ _ r) as [l1 r1].
  destruct (Bilinear initial "last_para" _ _ _ r1) as [l2 r2].
  destruct (Bilinear initial "last_similar" _ _ _ r2) as [l3 r3].
  eauto.
Qed.

Lemma init_rejects pretrained config r :
  fine_tune_mode config ∉ valid_modes ->
  init initial pretrained config r = (Raise AssertionError, r).
Proof. intros Hn. unfold init. by rewrite bool_decide_eq_false_2. Qed.

(** C3, as amended: constructing the model with a fine_tune_mode other
    than "last-linear-layer" or "full-model" fails with the
    AssertionError of the constructor's assertion, whatever the invalid
    mode string is, and before any head is initialised: the generator
    is as it was. *)
Theorem init_invalid_mode_raises_assertion pretrained config r :
  fine_tune_mode config <> "last-linear-layer" ->
  fine_tune_mode config <> "full-model" ->
  init initial pretrained config r = (Raise AssertionError, r).
Proof.
  intros H1 H2. apply init_rejects. unfold valid_modes.
  rewrite !elem_of_cons, elem_of_nil. tauto.
Qed.

(** C5: after construction in mode "last-linear-layer" every backbone
    parameter has requires_grad = False and every task-head parameter is
    trainable; after construction in mode "full-model" every backbone
    parameter has requires_grad = True. In both modes construction
    succeeds and keeps every backbone parameter, unless Dropout refuses
    the probability: then it raises ValueError. *)
Theorem init_sets_requires_grad pretrained config r :
  (fine_tune_mode config = "last-linear-layer" ->
   if out_of_range (hidden_dropout_prob config)
   then init initial pretrained config r = (Raise ValueError, r)
   else exists (m : MultitaskBERT T) r',
       init initial pretrained config r = (Ok m, r')
       /\ length (bert m) = length pretrained
       /\ Forall (fun p => requires_grad p = false) (bert m)
       /\ Forall (fun p => requires_grad p = true) (head_parameters m))
  /\ (fine_tune_mode config = "full-model" ->
      if out_of_range (hidden_dropout_prob config)
      then init initial pretrained config r = (Raise ValueError, r)
      else exists (m : MultitaskBERT T) r',
          init initial pretrained config r = (Ok m, r')
          /\ length (bert m) = length pretrained
          /\ Forall (fun p => requires_grad p = true) (bert m)).
Proof.
  split; intros Hmode.
  - pose proof (init_valid_mode pretrained config r) as Hinit.
    destruct (out_of_range (hidden_dropout_prob config)).
    { apply Hinit. rewrite Hmode. unfold valid_modes. set_solver. }
    destruct Hinit as (m & r' & Hm).
    { rewrite Hmode. unfold valid_modes. set_solver. }
    destruct (init_returned _ _ _ _ _ Hm) as (_ & _ & Hbert & Hheads).
    exists m, r'. rewrite Hbert, length_map, Hmode.
    repeat split; [done| |done].
    apply Forall_fmap, Forall_true. intros p. apply fine_tune_frozen.
  - pose proof (init_valid_mode pretrained config r) as Hinit.
    destruct (out_of_range (hidden_dropout_prob config)).
    { apply Hinit. rewrite Hmode. unfold valid_modes. set_solver. }
    destruct Hinit as (m & r' & Hm).
    { rewrite Hmode. unfold valid_modes. set_solver. }
    destruct (init_returned _ _ _ _ _ Hm) as (_ & _ & Hbert & _).
    exists m, r'. rewrite Hbert, length_map, Hmode.
    repeat split; [done|].
    apply Forall_fmap, Forall_true. intros p. apply fine_tune_full.
Qed.

End Init.

(** C3, as stated, fails: the mode "first-layer" is invalid, and
    construction does not fail with a ConfigurationError. *)
Lemma init_invalid_mode_not_configuration_error :
  fine_tune_mode Demo.bad_config <> "last-linear-layer"
  /\ fine_tune_mode Demo.bad_config <> "full-model"
  /\ (init (@Driver.initial_tensor _ Demo.ops)
           (@Driver.from_pretrained _ Demo.ops) Demo.bad_config 0%Z).1
     <> Raise Surgery.ConfigurationError.
Proof. repeat split; vm_compute; discriminate. Qed.

Lemma init_invalid_mode_raises_assertion_witness :
  init (@Driver.initial_tensor _ Demo.ops)
       (@Driver.from_pretrained _ Demo.ops) Demo.bad_config 0%Z
  = (Raise AssertionError, 0%Z).
Proof.
  apply init_invalid_mode_raises_assertion; vm_compute; discriminate.
Defined.

Lemma init_sets_requires_grad_witness :
  exists (m : MultitaskBERT (list nat)) r',
    init (@Driver.initial_tensor _ Demo.ops)
         (@Driver.from_pretrained _ Demo.ops) Demo.config 0%Z = (Ok m, r')
    /\ length (bert m) = 2%nat
    /\ Forall (fun p => requires_grad p = false) (bert m)
    /\ Forall (fun p => requires_grad p = true) (head_parameters m).
Proof.
  exact (proj1 (init_sets_requires_grad
                  (@Driver.initial_tensor _ Demo.ops)
                  (@Driver.from_pretrained _ Demo.ops) Demo.config 0%Z)
               eq_refl).
Defined.

End BertSpec.

(* ================================================================== *)
(** ** The driver: what each computation leaves alone *)
(* ================================================================== *)

Module DriverSpec.
Import Bert Driver.
#[local] Open Scope list_scope.

Section Frames.
Context `{C : Collab} {O : @Ops C}.

Lemma keeps_ret {X A} (proj : World -> X) (a : A) : keeps proj (ret a).
Proof. intros w. reflexivity. Qed.

Lemma keeps_mret {X A} (proj : World -> X) (a : A) : keeps proj (mret a).
Proof. intros w. reflexivity. Qed.

Lemma keeps_raise {X A} (proj : World -> X) e :
  keeps proj (raise (A := A) e).
Proof. intros w. reflexivity. Qed.

Lemma keeps_of_outcome {X A} (proj : World -> X) (o : outcome A) :
  keeps proj (of_outcome o).
Proof. intros w. reflexivity. Qed.

Lemma keeps_bind {X A B} (proj : World -> X) (c : M A) (k : A -> M B) :
  keeps proj c -> (forall a, keeps proj (k a)) -> keeps proj (c ≫= k).
Proof.
  intros Hc Hk w. unfold mbind, M_bind, bind.
  specialize (Hc w). destruct (c w) as [[a|e] w1]; simpl in *.
  - rewrite Hk. exact Hc.
  - exact Hc.
Qed.

Lemma keeps_for {X A S} (proj : World -> X) (xs : list A)
    (body : A -> S -> M S) :
  (forall x s, keeps proj (body x s)) ->
  forall s, keeps proj (for_ xs body s).
Proof.
  intros Hbody. induction xs as [|x xs IH]; intros s; simpl.
  - apply keeps_ret.
  - apply keeps_bind; [apply Hbody | exact IH].
Qed.

Lemma sample_keeps_disk {A} (f : Rngs -> A * Rngs) : keeps disk (sample f).
Proof. intros w. unfold sample. by destruct (f (rng w)). Qed.

Lemma sample_keeps_stdout {A} (f : Rngs -> A * Rngs) :
  keeps stdout (sample f).
Proof. intros w. unfold sample. by destruct (f (rng w)). Qed.

Lemma sample_keeps_calls {A} (f : Rngs -> A * Rngs) :
  keeps calls (sample f).
Proof. intros w. unfold sample. by destruct (f (rng w)). Qed.

Lemma invoke_keeps_disk c t : keeps disk (invoke c t).
Proof. intros w. reflexivity. Qed.

Lemma invoke_keeps_stdout c t : keeps stdout (invoke c t).
Proof. intros w. reflexivity. Qed.

Lemma invoke_keeps_rng c t : keeps rng (invoke c t).
Proof. intros w. reflexivity. Qed.

Lemma print_keeps_disk s : keeps disk (print s).
Proof. intros w. reflexivity. Qed.

Lemma print_keeps_calls s : keeps calls (print s).
Proof. intros w. reflexivity. Qed.

Lemma true_div_keeps {X} (proj : World -> X) x n :
  keeps proj (true_div x n).
Proof.
  unfold true_div. case_bool_decide; [apply keeps_raise|apply keeps_ret].
Qed.

Lemma call_keeps {X} (proj : World -> X) f actuals :
  keeps proj (call f actuals).
Proof.
  unfold call.
  case_bool_decide; [apply keeps_of_outcome|apply keeps_raise].
Qed.

End Frames.

Create HintDb frame.
#[export] Hint Resolve keeps_ret keeps_mret keeps_raise keeps_of_outcome
  sample_keeps_disk sample_keeps_stdout sample_keeps_calls
  invoke_keeps_disk invoke_keeps_stdout invoke_keeps_rng
  print_keeps_disk print_keeps_calls true_div_keeps call_keeps : frame.

(** Walks a computation written with binds and loops, leaving the
    frame facts of its leaves to the hint base. *)
Ltac frame :=
  repeat first
    [ solve [eauto with frame]
    | apply keeps_bind; [|intros ?]
    | apply keeps_for; intros ? ?
    | match goal with p : (_ * _)%type |- _ => destruct p end
    | progress simpl ].

Section FrameFacts.
Context `{C : Collab} {O : @Ops C}.

Lemma next_iter_keeps_calls l : keeps calls (next_iter l).
Proof.
  unfold next_iter. apply keeps_bind; [eauto with frame|].
  intros [|b bs]; eauto with frame.
Qed.

Lemma next_iter_keeps_disk l : keeps disk (next_iter l).
Proof.
  unfold next_iter. apply keeps_bind; [eauto with frame|].
  intros [|b bs]; eauto with frame.
Qed.

Lemma next_iter_keeps_stdout l : keeps stdout (next_iter l).
Proof.
  unfold next_iter. apply keeps_bind; [eauto with frame|].
  intros [|b bs]; eauto with frame.
Qed.

End FrameFacts.

#[export] Hint Resolve next_iter_keeps_calls next_iter_keeps_disk
  next_iter_keeps_stdout : frame.

(* ================================================================ *)
(** ** Running the pieces *)
(* ================================================================ *)

Section Runs.
Context `{C : Collab} {O : @Ops C}.
Abbreviation MultitaskBERT := (Bert.MultitaskBERT Tensor).

Lemma bind_run {A B} (c : M A) (k : A -> M B) w :
  (c ≫= k) w = match c w with
               | (Ok a, w') => k a w'
               | (Raise e, w') => (Raise e, w')
               end.
Proof. reflexivity. Qed.

(** Running a sampler always returns, and changes the generators only. *)
Lemma sample_run {A} (f : Rngs -> A * Rngs) w :
  sample f w = (Ok (f (rng w)).1, set_rng (f (rng w)).2 w).
Proof. unfold sample. by destruct (f (rng w)). Qed.

(** Constructing the model always ends, and changes at most the torch
    generator. *)
Lemma construct_run config w :
  construct config w
  = let i := Bert.init initial_tensor from_pretrained config
                       (torch_rng (rng w)) in
    (i.1, set_rng (set_torch_rng i.2 (rng w)) w).
Proof. unfold construct. by destruct (Bert.init _ _ _ _). Qed.

Lemma set_rng_same w :
  set_rng (set_torch_rng (torch_rng (rng w)) (rng w)) w = w.
Proof. by destruct w as [[? ? ?] ? ? ?]. Qed.

Lemma for_first_raises {A S} (x : A) xs (body : A -> S -> M S) s w e w' :
  body x s w = (Raise e, w') -> for_ (x :: xs) body s w = (Raise e, w').
Proof. intros Hx. simpl. by rewrite bind_run, Hx. Qed.

Lemma range_pos n : (0 < n)%Z -> exists rest, range n = 0%Z :: rest.
Proof.
  intros Hn. unfold range.
  destruct (Z.to_nat n) as [|k] eqn:Hk; [lia|]. simpl. eauto.
Qed.

Lemma three_batches_keeps_calls L : keeps calls (three_batches L).
Proof. unfold three_batches. frame. Qed.

Lemma three_batches_keeps_disk L : keeps disk (three_batches L).
Proof. unfold three_batches. frame. Qed.

Lemma three_batches_keeps_stdout L : keeps stdout (three_batches L).
Proof. unfold three_batches. frame. Qed.

Lemma three_losses_keeps_calls args (m : MultitaskBERT) b1 b2 b3 :
  keeps calls (three_losses args m b1 b2 b3).
Proof.
  unfold three_losses, pair_logits, predict_sentiment, predict_paraphrase,
    predict_similarity, forward.
  frame.
Qed.

Lemma three_losses_keeps_disk args (m : MultitaskBERT) b1 b2 b3 :
  keeps disk (three_losses args m b1 b2 b3).
Proof.
  unfold three_losses, pair_logits, predict_sentiment, predict_paraphrase,
    predict_similarity, forward.
  frame.
Qed.

Lemma three_losses_keeps_stdout args (m : MultitaskBERT) b1 b2 b3 :
  keeps stdout (three_losses args m b1 b2 b3).
Proof.
  unfold three_losses, pair_logits, predict_sentiment, predict_paraphrase,
    predict_similarity, forward.
  frame.
Qed.

Lemma pair_paraphrase_keeps_calls (m : MultitaskBERT) batch :
  keeps calls (pair_logits predict_paraphrase m batch).
Proof. unfold pair_logits, predict_paraphrase, forward. frame. Qed.

Lemma pair_paraphrase_keeps_disk (m : MultitaskBERT) batch :
  keeps disk (pair_logits predict_paraphrase m batch).
Proof. unfold pair_logits, predict_paraphrase, forward. frame. Qed.

Lemma pair_similarity_returns (m : MultitaskBERT) batch w :
  exists t r,
    pair_logits predict_similarity m batch w = (Ok t, set_rng r w).
Proof.
  unfold pair_logits, predict_similarity, forward, mbind, M_bind, bind.
  repeat (rewrite sample_run; simpl). eauto.
Qed.

End Runs.

#[export] Hint Resolve three_batches_keeps_calls three_batches_keeps_disk
  three_batches_keeps_stdout three_losses_keeps_calls
  three_losses_keeps_disk three_losses_keeps_stdout : frame.

(** No [backward] among the members of an explicit list of calls. *)
Ltac no_backward :=
  let Hin := fresh in
  intros ? Hin;
  repeat (apply elem_of_cons in Hin as [Hin|Hin]; [discriminate|]);
  by apply elem_of_nil in Hin.

(* ================================================================ *)
(** ** The PCGrad step *)
(* ================================================================ *)

Section PCGradStep.
Context `{C : Collab} {O : @Ops C}.
Abbreviation MultitaskBERT := (Bert.MultitaskBERT Tensor).

(** The step, run: batches, [zero_grad], the three losses,
    [pc_backward] on their list, [step]. *)
Lemma step_PCGrad_run args L (model : MultitaskBERT) optimizer
    train_loss num_batches w :
  step_PCGrad args L (model, optimizer, train_loss, num_batches) w
  = match three_batches L w with
    | (Raise e, w1) => (Raise e, w1)
    | (Ok (b1, b2, b3), w1) =>
        let t1 := effect zero_grad (model, optimizer) in
        match three_losses args t1.1 b1 b2 b3
                (set_calls (calls w1 ++ [zero_grad]) w1) with
        | (Raise e, w2) => (Raise e, w2)
        | (Ok (l1, l2, l3), w2) =>
            let t3 :=
              effect step (effect (pc_backward [l1; l2; l3]) t1) in
            (Ok (t3.1, t3.2,
                 PyFloat.add train_loss
                   (item (tensor_add (tensor_add l1 l2) l3)),
                 (num_batches + 1)%Z),
             set_calls (calls w2 ++ [pc_backward [l1; l2; l3]; step]) w2)
        end
    end.
Proof.
  unfold step_PCGrad, mbind, M_bind, bind.
  destruct (three_batches L w) as [[[[b1 b2] b3]|e] w1]; [|done].
  unfold invoke at 1. simpl.
  destruct (effect zero_grad (model, optimizer)) as [m1 o1]. simpl.
  destruct (three_losses args m1 b1 b2 b3 _)
    as [[[[l1 l2] l3]|e] w2]; [|done].
  unfold invoke. simpl.
  destruct (effect (pc_backward [l1; l2; l3]) (m1, o1)) as [m2 o2].
  destruct (effect step (m2, o2)) as [m3 o3]. simpl.
  by rewrite <- app_assoc.
Qed.

(** C7: a training step of the PCGrad strategy never calls a
    combined-loss [backward]; and when its batches and its three
    per-task losses l1 (sentiment), l2 (paraphrase), l3 (similarity)
    are computed, it calls exactly zero_grad, then pc_backward on the
    list [l1; l2; l3], then step, in this order, and adds the
    unweighted sum l1 + l2 + l3 to the training loss it accumulates. *)
Theorem step_PCGrad_sequence args L (model : MultitaskBERT) optimizer
    train_loss num_batches w :
  (forall loss,
      backward loss ∉
        new_calls w (step_PCGrad args L
                       (model, optimizer, train_loss, num_batches) w).2)
  /\ (forall b1 b2 b3 w1 l1 l2 l3 w2,
        three_batches L w = (Ok (b1, b2, b3), w1) ->
        three_losses args (effect zero_grad (model, optimizer)).1 b1 b2 b3
                     (set_calls (calls w1 ++ [zero_grad]) w1)
        = (Ok (l1, l2, l3), w2) ->
        exists model' optimizer' w',
          step_PCGrad args L (model, optimizer, train_loss, num_batches) w
          = (Ok (model', optimizer',
                 PyFloat.add train_loss
                   (item (tensor_add (tensor_add l1 l2) l3)),
                 (num_batches + 1)%Z), w')
          /\ (model', optimizer')
             = effect step (effect (pc_backward [l1; l2; l3])
                                   (effect zero_grad (model, optimizer)))
          /\ new_calls w w'
             = [zero_grad; pc_backward [l1; l2; l3]; step]).
Proof.
  rewrite step_PCGrad_run. unfold new_calls.
  pose proof (three_batches_keeps_calls L w) as Hb.
  destruct (three_batches L w) as [[[[b1 b2] b3]|e] w1]; simpl in Hb.
  2:{ split; [|discriminate]. simpl. rewrite Hb, drop_all. no_backward. }
  pose proof (three_losses_keeps_calls args
                (effect zero_grad (model, optimizer)).1 b1 b2 b3
                (set_calls (calls w1 ++ [zero_grad]) w1)) as Hl.
  simpl.
  destruct (three_losses args _ b1 b2 b3 _)
    as [[[[l1 l2] l3]|e] w2] eqn:Hrun; simpl in Hl.
  2:{ split.
      - simpl. rewrite Hl, Hb, drop_app_length. no_backward.
      - intros ? ? ? ? ? ? ? ? [= <- <- <- <-] Hloss. congruence. }
  split.
  - simpl. rewrite Hl, Hb, <- app_assoc, drop_app_length. no_backward.
  - intros ? ? ? ? ? ? ? ? [= <- <- <- <-] Hloss.
    rewrite Hrun in Hloss. injection Hloss as <- <- <- <-.
    eexists _, _, _. split; [reflexivity|]. split.
    + by destruct (effect step _).
    + simpl. by rewrite Hl, Hb, <- app_assoc, drop_app_length.
Qed.

(** The simultaneous step, for contrast, backpropagates the sum. *)
Lemma step_simultaneous_run args L (model : MultitaskBERT) optimizer
    train_loss num_batches w :
  step_simultaneous args L (model, optimizer, train_loss, num_batches) w
  = match three_batches L w with
    | (Raise e, w1) => (Raise e, w1)
    | (Ok (b1, b2, b3), w1) =>
        let t1 := effect zero_grad (model, optimizer) in
        match three_losses args t1.1 b1 b2 b3
                (set_calls (calls w1 ++ [zero_grad]) w1) with
        | (Raise e, w2) => (Raise e, w2)
        | (Ok (l1, l2, l3), w2) =>
            let t3 :=
              effect step
                (effect (backward (tensor_add (tensor_add l1 l2) l3)) t1) in
            (Ok (t3.1, t3.2,
                 PyFloat.add train_loss
                   (item (tensor_add (tensor_add l1 l2) l3)),
                 (num_batches + 1)%Z),
             set_calls
               (calls w2
                  ++ [backward (tensor_add (tensor_add l1 l2) l3); step])
               w2)
        end
    end.
Proof.
  unfold step_simultaneous, mbind, M_bind, bind.
  destruct (three_batches L w) as [[[[b1 b2] b3]|e] w1]; [|done].
  unfold invoke at 1. simpl.
  destruct (effect zero_grad (model, optimizer)) as [m1 o1]. simpl.
  destruct (three_losses args m1 b1 b2 b3 _)
    as [[[[l1 l2] l3]|e] w2]; [|done].
  unfold invoke. simpl.
  destruct (effect (backward (tensor_add (tensor_add l1 l2) l3))
                   (m1, o1)) as [m2 o2].
  destruct (effect step (m2, o2)) as [m3 o3]. simpl.
  by rewrite <- app_assoc.
Qed.

End PCGradStep.

(* ================================================================ *)
(** ** The sequential procedure: the STS phase *)
(* ================================================================ *)

Section Sequential.
Context `{C : Collab} {O : @Ops C}.
Abbreviation MultitaskBERT := (Bert.MultitaskBERT Tensor).

(** [sts_loss] takes three arguments; called with two it raises. *)
Lemma call_sts_loss_two_arguments logits labels w :
  call sts_loss [ATensor logits; ATensor labels] w = (Raise TypeError, w).
Proof. reflexivity. Qed.

Lemma step_sts_raises args batch (s : Inner) w :
  exists w', step_sts args batch s w = (Raise TypeError, w')
             /\ calls w' = calls w ++ [zero_grad]
             /\ disk w' = disk w.
Proof.
  destruct s as [[[model optimizer] train_loss] num_batches].
  unfold step_sts, mbind, M_bind, bind, invoke.
  destruct (effect zero_grad (model, optimizer)) as [m1 o1].
  destruct (pair_similarity_returns m1 batch
              (set_calls (calls w ++ [zero_grad]) w)) as (t & r & ->).
  rewrite call_sts_loss_two_arguments. eauto.
Qed.

Lemma epoch_sts_raises args L config epoch (s : Outer) w :
  (iterate (sts_train_dataloader L) (rng w)).1 <> [] ->
  exists w',
    epoch_sts args L config epoch s w = (Raise TypeError, w')
    /\ calls w' = calls w ++ [train_mode; zero_grad]
    /\ disk w' = disk w.
Proof.
  intros Hne. destruct s as [[[model optimizer] best] acc].
  unfold epoch_sts. rewrite bind_run. unfold invoke at 1.
  destruct (effect train_mode (model, optimizer)) as [m1 o1].
  rewrite bind_run, sample_run. cbn [rng set_calls].
  destruct (iterate (sts_train_dataloader L) (rng w)) as [[|b bs] r];
    [done|].
  cbn [fst snd]. rewrite bind_run.
  match goal with
  | |- context [for_ (b :: bs) (step_sts args) ?s ?w0] =>
      destruct (step_sts_raises args b s w0) as (w1 & Hrun & Hc & Hd);
      rewrite (for_first_raises _ _ _ _ _ _ _ Hrun)
  end.
  exists w1. split; [done|]. rewrite Hc, Hd. simpl.
  by rewrite <- app_assoc.
Qed.

(** C4: in the sequential procedure a step of the STS phase never
    completes: whatever the batch, it raises TypeError at the call of
    sts_loss with two arguments, after zero_grad and before any
    backward or step. So every execution of the phase that has a first
    step (at least one epoch, a non-empty loader) ends on that step
    with a TypeError. *)
Theorem sts_phase_raises_type_error args L config (model : MultitaskBERT)
    train_acc w :
  (forall batch s w0,
      exists w1, step_sts args batch s w0 = (Raise TypeError, w1)
                 /\ new_calls w0 w1 = [zero_grad])
  /\ ((0 < epochs args)%Z ->
      (iterate (sts_train_dataloader L) (rng w)).1 <> [] ->
      exists w',
        sts_phase args L config model train_acc w = (Raise TypeError, w')
        /\ new_calls w w' = [train_mode; zero_grad]
        /\ disk w' = disk w).
Proof.
  split.
  - intros batch s w0.
    destruct (step_sts_raises args batch s w0) as (w1 & Hrun & Hc & _).
    exists w1. split; [done|]. unfold new_calls.
    by rewrite Hc, drop_app_length.
  - intros Hep Hne. unfold sts_phase, phase.
    destruct (range_pos _ Hep) as [rest ->].
    rewrite bind_run. unfold print at 1. rewrite bind_run.
    match goal with
    | |- context [for_ (0%Z :: rest) ?f ?s ?w0] =>
        destruct (epoch_sts_raises args L config 0%Z s w0 Hne)
          as (w1 & Hrun & Hc & Hd);
        rewrite (for_first_raises _ _ _ _ _ _ _ Hrun)
    end.
    exists w1. split; [done|]. unfold new_calls. rewrite Hc, Hd. simpl.
    split; [|done]. by rewrite drop_app_length.
Qed.

End Sequential.

(* ================================================================ *)
(** ** [save_model] and the dispatch on [train_type] *)
(* ================================================================ *)

Section Checkpoint.
Context `{C : Collab} {O : @Ops C}.
Abbreviation MultitaskBERT := (Bert.MultitaskBERT Tensor).

Lemma save_model_run (model : MultitaskBERT) optimizer args config
    filepath w :
  save_model model optimizer args config filepath w
  = (Ok tt,
     set_stdout (stdout w ++ [("save the model to " ++ filepath)%string])
       (set_disk
          (<[filepath :=
               Pickle (save_info model optimizer args config (rng w))]>
             (disk w)) w)).
Proof. reflexivity. Qed.

(** C6: save_model writes one file, at filepath, and that file is a
    dictionary with exactly the seven entries model, optim, args,
    model_config, system_rng, numpy_rng and torch_rng, holding the
    model's state, the optimizer's state, the run configuration and
    the current states of the three generators. *)
Theorem save_model_bundle (model : MultitaskBERT) optimizer args config
    filepath w :
  exists d w',
    save_model model optimizer args config filepath w = (Ok tt, w')
    /\ disk w' = <[filepath := Pickle d]> (disk w)
    /\ dom d = checkpoint_keys
    /\ d !! "model" = Some (VModel (state_dict model))
    /\ d !! "optim" = Some (VOptim (optim_state_dict optimizer))
    /\ d !! "args" = Some (VArgs args)
    /\ d !! "model_config" = Some (VConfig config)
    /\ d !! "system_rng" = Some (VSysRng (system_rng (rng w)))
    /\ d !! "numpy_rng" = Some (VNpRng (numpy_rng (rng w)))
    /\ d !! "torch_rng" = Some (VTorchRng (torch_rng (rng w))).
Proof.
  exists (save_info model optimizer args config (rng w)). eexists.
  split; [apply save_model_run|]. split; [reflexivity|].
  split.
  - unfold save_info, checkpoint_keys. by rewrite dom_list_to_map_L.
  - unfold save_info. repeat split; reflexivity.
Qed.

(** C8: the training-strategy flag selects the procedure: None runs
    train_multitask (sequential), "simultaneous" runs
    train_simultaneous, "pcgrad" runs train_PCGrad, and any other value
    runs no training procedure: it prints "Not training" and changes
    nothing else. *)
Theorem run_training_dispatch args :
  (train_type args = None -> run_training args = train_multitask args)
  /\ (train_type args = Some "simultaneous" ->
      run_training args = train_simultaneous args)
  /\ (train_type args = Some "pcgrad" ->
      run_training args = train_PCGrad args)
  /\ (forall t, train_type args = Some t ->
                t <> "simultaneous" -> t <> "pcgrad" ->
                forall w,
                  run_training args w
                  = (Ok tt, set_stdout (stdout w ++ ["Not training"]) w)).
Proof.
  unfold run_training. repeat split.
  - by intros ->.
  - by intros ->.
  - by intros ->.
  - intros t -> H1 H2 w.
    apply String.eqb_neq in H1, H2. by rewrite H1, H2.
Qed.

End Checkpoint.

(* ================================================================ *)
(** ** Best-checkpoint selection in the joint procedures *)
(* ================================================================ *)

Section BestCheckpoint.
Context `{C : Collab} {O : @Ops C}.
Abbreviation MultitaskBERT := (Bert.MultitaskBERT Tensor).

Lemma step_PCGrad_keeps_disk args L s : keeps disk (step_PCGrad args L s).
Proof. destruct s as [[[? ?] ?] ?]. unfold step_PCGrad. frame. Qed.

Lemma step_PCGrad_keeps_stdout args L s :
  keeps stdout (step_PCGrad args L s).
Proof. destruct s as [[[? ?] ?] ?]. unfold step_PCGrad. frame. Qed.

Lemma step_simultaneous_keeps_disk args L s :
  keeps disk (step_simultaneous args L s).
Proof. destruct s as [[[? ?] ?] ?]. unfold step_simultaneous. frame. Qed.

Lemma step_simultaneous_keeps_stdout args L s :
  keeps stdout (step_simultaneous args L s).
Proof. destruct s as [[[? ?] ?] ?]. unfold step_simultaneous. frame. Qed.

Lemma train_and_eval_keeps_disk step_fn args L (model : MultitaskBERT)
    optimizer :
  (forall s, keeps disk (step_fn args L s)) ->
  keeps disk (train_and_eval step_fn args L model optimizer).
Proof.
  intros Hstep. unfold train_and_eval.
  apply keeps_bind; [eauto with frame|]. intros [m o].
  apply keeps_bind; [apply keeps_for; intros ? ?; apply Hstep|].
  intros [[[m2 o2] tl] nb].
  apply keeps_bind; [eauto with frame|]. intros tl'.
  repeat (apply keeps_bind; [eauto with frame|]; intros [? ?]).
  eauto with frame.
Qed.

Lemma keep_best_run (model : MultitaskBERT) optimizer args config
    dev_acc best_dev_acc w :
  keep_best model optimizer args config dev_acc best_dev_acc w
  = if PyFloat.lt best_dev_acc dev_acc
    then (Ok dev_acc,
          (save_model model optimizer args config (filepath args) w).2)
    else (Ok best_dev_acc, w).
Proof. unfold keep_best. by destruct (PyFloat.lt best_dev_acc dev_acc). Qed.

Lemma select_and_report_run saved args config epoch best_dev_acc
    (e : Evaluated) w :
  select_and_report saved args config epoch best_dev_acc e w
  = let line := epoch_line epoch (e_train_loss e) (e_train_acc e)
                           (e_dev_acc e) in
    if PyFloat.lt best_dev_acc (e_dev_acc e)
    then (Ok (e_model e, e_optimizer e, e_dev_acc e),
          set_stdout
            (stdout w ++ [("save the model to " ++ filepath args)%string;
                          line])
            (set_disk
               (<[filepath args :=
                    Pickle (save_info (e_model e) (saved (e_optimizer e))
                                      args config (rng w))]> (disk w)) w))
    else (Ok (e_model e, e_optimizer e, best_dev_acc),
          set_stdout (stdout w ++ [line]) w).
Proof.
  unfold select_and_report. rewrite bind_run, keep_best_run.
  destruct (PyFloat.lt best_dev_acc (e_dev_acc e)); [|done].
  rewrite save_model_run. cbn [fst snd]. rewrite bind_run.
  unfold print, set_stdout, set_disk. simpl.
  by rewrite <- app_assoc.
Qed.

(** The averaged dev metric is [(a + b + c) / 3] in floats, for the
    three dev accuracies of the model the epoch trained, evaluated one
    after the other: sentiment, paraphrase, similarity. *)
Lemma train_and_eval_mean step_fn args L (model : MultitaskBERT)
    optimizer w e w1 :
  train_and_eval step_fn args L model optimizer w = (Ok e, w1) ->
  exists r,
    let a := model_eval_sst (sst_dev_dataloader L) (e_model e) r in
    let b := model_eval_para (para_dev_dataloader L) (e_model e) a.2 in
    let c := model_eval_sts (sts_dev_dataloader L) (e_model e) b.2 in
    e_dev_acc e = mean3 a.1.1 b.1.1 c.1.1 /\ rng w1 = c.2.
Proof.
  unfold train_and_eval. rewrite bind_run. unfold invoke at 1.
  destruct (effect train_mode (model, optimizer)) as [m1 o1].
  rewrite bind_run.
  destruct (for_ _ _ _ _) as [[[[[m2 o2] tl] nb]|err] w2]; [|done].
  rewrite bind_run. unfold true_div.
  case_bool_decide; [done|]. cbn [ret].
  rewrite bind_run, sample_run. cbn [rng set_rng].
  destruct (model_eval_sst (sst_train_dataloader L) m2 (rng w2))
    as [[ta tf] ra]. cbn [fst snd].
  rewrite bind_run, sample_run. cbn [rng set_rng].
  destruct (model_eval_sst (sst_dev_dataloader L) m2 ra)
    as [[a af] rb] eqn:Ha. cbn [fst snd].
  rewrite bind_run, sample_run. cbn [rng set_rng].
  destruct (model_eval_para (para_dev_dataloader L) m2 rb)
    as [[b bf] rc] eqn:Hb. cbn [fst snd].
  rewrite bind_run, sample_run. cbn [rng set_rng].
  destruct (model_eval_sts (sts_dev_dataloader L) m2 rc)
    as [[c cf] rd] eqn:Hc. cbn [fst snd].
  intros [= <- <-]. exists ra. cbv zeta.
  cbn [e_model e_dev_acc rng set_rng]. rewrite Ha. cbn [fst snd].
  rewrite Hb. cbn [fst snd]. by rewrite Hc.
Qed.

(** Along a run, [best_dev_acc] is a best value seen so far: it is the
    initial 0 or the averaged dev metric of a completed epoch, and
    neither of these exceeds it. *)
Lemma running_best step_fn saved args L config (model0 : MultitaskBERT)
    optimizer0 w0 devs s w :
  after_epochs step_fn saved args L config model0 optimizer0 w0 devs s w ->
  s.2 ∈ PyFloat.of_int 0 :: devs
  /\ Forall (fun d => PyFloat.lt s.2 d = false) (PyFloat.of_int 0 :: devs).
Proof.
  induction 1 as [|devs model optimizer best w e w1 s' w' _ IH _ Hsel].
  - simpl. split; [apply elem_of_cons; by left|].
    constructor; [apply PyFloatSpec.lt_irrefl|constructor].
  - destruct IH as [Hin Hle]. simpl in Hin, Hle.
    rewrite select_and_report_run in Hsel. cbn zeta in Hsel.
    rewrite app_comm_cons, elem_of_app, Forall_app, list_elem_of_singleton.
    destruct (PyFloat.lt best (e_dev_acc e)) eqn:Hlt;
      injection Hsel as <- <-; simpl.
    + split; [by right|]. split.
      * eapply Forall_impl; [|exact Hle]. intros d Hd. simpl in Hd.
        destruct (PyFloat.lt (e_dev_acc e) d) eqn:Hd'; [|done].
        by rewrite (PyFloatSpec.lt_trans _ _ _ Hlt Hd') in Hd.
      * constructor; [apply PyFloatSpec.lt_irrefl|constructor].
    + split; [by left|]. split; [done|].
      constructor; [done|constructor].
Qed.

(** An epoch is its training and evaluation, then the selection. *)
Lemma epoch_joint_run step_fn saved args L config epoch
    (model : MultitaskBERT) optimizer best_dev_acc w e w1 :
  train_and_eval step_fn args L model optimizer w = (Ok e, w1) ->
  epoch_joint step_fn saved args L config epoch
              (model, optimizer, best_dev_acc) w
  = select_and_report saved args config epoch best_dev_acc e w1.
Proof. intros Heval. unfold epoch_joint. by rewrite bind_run, Heval. Qed.

(** C2: in every epoch of the PCGrad and of the simultaneous strategy
    (pcgrad = true or false), after any number of completed epochs of
    the run, the running best_dev_acc is the best value seen so far
    (the initial 0 or an earlier epoch's averaged dev metric, and
    neither of these exceeds it); the epoch's averaged dev metric is
    the float (a + b + c) / 3 of the three per-task dev accuracies; and
    the checkpoint is saved if and only if that metric strictly exceeds
    best_dev_acc (the comparison of floats: dev_acc > best_dev_acc):
    then the file at filepath becomes the new bundle and best_dev_acc
    the metric; otherwise the disk and best_dev_acc are left as they
    were and nothing but the epoch report is printed. *)
Theorem checkpoint_saved_iff_improved (pcgrad : bool) args L config
    (model0 : MultitaskBERT) optimizer0 w0 devs model optimizer
    best_dev_acc w e w1 :
  let step_fn := if pcgrad then step_PCGrad else step_simultaneous in
  let saved := if pcgrad then optimizer_of else id in
  after_epochs step_fn saved args L config model0 optimizer0 w0
               devs (model, optimizer, best_dev_acc) w ->
  train_and_eval step_fn args L model optimizer w = (Ok e, w1) ->
  (best_dev_acc ∈ PyFloat.of_int 0 :: devs
   /\ Forall (fun d => PyFloat.lt best_dev_acc d = false)
             (PyFloat.of_int 0 :: devs))
  /\ (exists r,
        let a := model_eval_sst (sst_dev_dataloader L) (e_model e) r in
        let b := model_eval_para (para_dev_dataloader L) (e_model e) a.2 in
        let c := model_eval_sts (sts_dev_dataloader L) (e_model e) b.2 in
        e_dev_acc e
        = PyFloat.div (PyFloat.add (PyFloat.add a.1.1 b.1.1) c.1.1)
                      (PyFloat.of_int 3)
        /\ rng w1 = c.2)
  /\ exists best' w',
      epoch_joint step_fn saved args L config (Z.of_nat (length devs))
                  (model, optimizer, best_dev_acc) w
      = (Ok (e_model e, e_optimizer e, best'), w')
      /\ (PyFloat.lt best_dev_acc (e_dev_acc e) = true ->
          best' = e_dev_acc e
          /\ disk w'
             = <[filepath args :=
                   Pickle (save_info (e_model e) (saved (e_optimizer e))
                                     args config (rng w1))]> (disk w)
          /\ new_stdout w1 w'
             = [("save the model to " ++ filepath args)%string;
                epoch_line (Z.of_nat (length devs)) (e_train_loss e)
                           (e_train_acc e) (e_dev_acc e)])
      /\ (PyFloat.lt best_dev_acc (e_dev_acc e) = false ->
          best' = best_dev_acc
          /\ disk w' = disk w
          /\ new_stdout w1 w'
             = [epoch_line (Z.of_nat (length devs)) (e_train_loss e)
                           (e_train_acc e) (e_dev_acc e)]).
Proof.
  intros step_fn saved Hrun Heval.
  split; [exact (running_best _ _ _ _ _ _ _ _ _ _ _ Hrun)|].
  split; [exact (train_and_eval_mean _ _ _ _ _ _ _ _ Heval)|].
  assert (disk w1 = disk w) as Hdisk.
  { assert (keeps disk (train_and_eval step_fn args L model optimizer))
      as Hk.
    { apply train_and_eval_keeps_disk. intros s. subst step_fn.
      destruct pcgrad;
        [apply step_PCGrad_keeps_disk|apply step_simultaneous_keeps_disk]. }
    specialize (Hk w). by rewrite Heval in Hk. }
  unfold epoch_joint, new_stdout.
  rewrite bind_run, Heval, select_and_report_run. cbn zeta.
  destruct (PyFloat.lt best_dev_acc (e_dev_acc e)).
  - eexists _, _. split; [reflexivity|]. split; [|done].
    intros _. simpl. rewrite Hdisk, drop_app_length. done.
  - eexists _, _. split; [reflexivity|]. split; [done|].
    intros _. simpl. rewrite Hdisk, drop_app_length. done.
Qed.


(** The epoch loop of a joint procedure only passes through such
    states. *)
Lemma loop_after_epochs step_fn saved args L config
    (model0 : MultitaskBERT) optimizer0 w0 k :
  forall n devs s w s' w',
    after_epochs step_fn saved args L config model0 optimizer0 w0
                 devs s w ->
    length devs = n ->
    for_ (map Z.of_nat (seq n k)) (epoch_joint step_fn saved args L config)
         s w = (Ok s', w') ->
    exists devs',
      length devs' = (n + k)%nat
      /\ after_epochs step_fn saved args L config model0 optimizer0 w0
                      devs' s' w'.
Proof.
  induction k as [|k IH]; intros n devs s w s' w' Hrun Hlen Hloop.
  - injection Hloop as <- <-. exists devs. by rewrite Nat.add_0_r.
  - simpl in Hloop. rewrite bind_run in Hloop.
    destruct s as [[model optimizer] best].
    destruct (epoch_joint _ _ _ _ _ _ _ _) as [[s1|err] w1] eqn:Hepoch;
      [|done].
    unfold epoch_joint in Hepoch. rewrite bind_run in Hepoch.
    destruct (train_and_eval _ _ _ _ _ _) as [[e|err] w2] eqn:Heval;
      [|done].
    rewrite <- Hlen in Hepoch.
    pose proof (run_epoch _ _ _ _ _ _ _ _ _ _ _ _ _ _ _ _ _
                  Hrun Heval Hepoch) as Hnext.
    destruct (IH (S n) _ _ _ s' w' Hnext) as (devs' & Hlen' & Hrun');
      [rewrite length_app; simpl; lia|exact Hloop|].
    exists devs'. split; [lia|done].
Qed.

End BestCheckpoint.

(* ================================================================ *)
(** ** The prediction files of [test_multitask] *)
(* ================================================================ *)

Section Predictions.
Context `{C : Collab} {O : @Ops C}.
Abbreviation MultitaskBERT := (Bert.MultitaskBERT Tensor).

Lemma append_empty (s : string) : (s ++ "")%string = s.
Proof.
  induction s as [|c s IH]; [done|].
  change (String c (s ++ "")%string = String c s). by rewrite IH.
Qed.

Lemma concat_cons (s : string) (l : list string) :
  String.concat "" (s :: l) = (s ++ String.concat "" l)%string.
Proof. destruct l; [apply eq_sym, append_empty|done]. Qed.

(** The text of a prediction file: the header line, then the rows. *)
Lemma prediction_text_shape task sent_ids y_pred :
  prediction_text task sent_ids y_pred
  = (("id " ++ tab ++ " Predicted_" ++ task ++ " " ++ newline)
       ++ String.concat ""
            (map (fun ps => ps.1 ++ " , " ++ str_pred ps.2 ++ " "
                                 ++ newline)
                 (zip sent_ids y_pred)))%string.
Proof. unfold prediction_text. by rewrite concat_cons. Qed.

Lemma prediction_rows_count (sent_ids : list string) (y_pred : list Pred) :
  length sent_ids = length y_pred ->
  length (map (fun ps => row_line ps.1 ps.2) (zip sent_ids y_pred))
  = length sent_ids.
Proof. intros Hlen. rewrite length_map, length_zip_with. lia. Qed.

(** What [test_multitask] does once the checkpoint is read, the model
    restored and the loaders built: it evaluates on the dev and on the
    test loaders, prints the three dev metrics and writes the six
    files. *)
Lemma test_multitask_run args w d config m0 t sd (model : MultitaskBERT)
    TL dev r1 test r2 :
  disk w !! filepath args = Some (Pickle d) ->
  d !! "model_config" = Some (VConfig config) ->
  Bert.init initial_tensor from_pretrained config (torch_rng (rng w))
  = (Ok m0, t) ->
  d !! "model" = Some sd ->
  load_state_dict m0 (OValue sd) = Ok model ->
  test_loaders args = Ok TL ->
  model_eval_multitask (sst_dev_loader TL) (para_dev_loader TL)
                       (sts_dev_loader TL) model
                       (set_torch_rng t (rng w)) = (dev, r1) ->
  model_eval_test_multitask (sst_test_loader TL) (para_test_loader TL)
                            (sts_test_loader TL) model r1 = (test, r2) ->
  test_multitask args w
  = (Ok tt,
     mkWorld r2 (write_all (prediction_files args dev test) (disk w))
             (stdout w
                ++ [("Loaded model to test from " ++ filepath args)%string;
                    ("dev sentiment acc :: "
                       ++ fmt_3f (dev_sentiment_accuracy dev))%string;
                    ("dev paraphrase acc :: "
                       ++ fmt_3f (dev_paraphrase_accuracy dev))%string;
                    ("dev sts corr :: " ++ fmt_3f (dev_sts_corr dev))%string])
             (calls w)).
Proof.
  intros Hd Hc Hinit Hsd Hload HTL Hdev Htest.
  unfold test_multitask, torch_load. rewrite bind_run, Hd. cbv beta iota.
  unfold subscript. rewrite bind_run, Hc. cbn [ret].
  rewrite bind_run. cbn [as_config ret].
  rewrite bind_run, construct_run, Hinit. cbn [fst snd].
  rewrite bind_run, Hsd. cbn [ret].
  rewrite bind_run. unfold of_outcome at 1. rewrite Hload.
  rewrite bind_run. unfold print at 1.
  rewrite bind_run. unfold of_outcome at 1. rewrite HTL.
  rewrite bind_run, sample_run. cbn [rng set_rng set_stdout].
  rewrite Hdev. cbn [fst snd].
  rewrite bind_run, sample_run. cbn [rng set_rng]. rewrite Htest.
  unfold write_predictions, write_file, print, mbind, M_bind, bind.
  cbn [fst snd rng disk stdout calls set_rng set_disk set_stdout].
  unfold write_all, prediction_files. cbn [foldl fst snd].
  by rewrite <- !app_assoc.
Qed.

(** A run of [test_multitask] that returns has read a checkpoint,
    restored the model and built the loaders. *)
Lemma test_multitask_returned args w w' :
  test_multitask args w = (Ok tt, w') ->
  exists d config m0 t sd (model : MultitaskBERT) TL,
    disk w !! filepath args = Some (Pickle d)
    /\ d !! "model_config" = Some (VConfig config)
    /\ Bert.init initial_tensor from_pretrained config (torch_rng (rng w))
       = (Ok m0, t)
    /\ d !! "model" = Some sd
    /\ load_state_dict m0 (OValue sd) = Ok model
    /\ test_loaders args = Ok TL.
Proof.
  unfold test_multitask, torch_load. rewrite bind_run.
  destruct (disk w !! filepath args) as [[d|t]|] eqn:Hd; [|done|done].
  unfold subscript. rewrite bind_run.
  destruct (d !! "model_config") as [v|] eqn:Hc; [|done]. cbn [ret].
  rewrite bind_run. destruct v; try done. cbn [as_config ret].
  rewrite bind_run, construct_run.
  destruct (Bert.init initial_tensor from_pretrained c _)
    as [[m0|err] t] eqn:Hinit; [|done].
  cbn [fst snd]. rewrite bind_run.
  destruct (d !! "model") as [sd|] eqn:Hsd; [|done]. cbn [ret].
  rewrite bind_run. unfold of_outcome at 1.
  destruct (load_state_dict m0 (OValue sd)) as [m'|err] eqn:Hload; [|done].
  rewrite bind_run. unfold print at 1.
  rewrite bind_run. unfold of_outcome at 1.
  destruct (test_loaders args) as [TL|err] eqn:HTL; [|done].
  intros _. by exists d, c, m0, t, sd, m', TL.
Qed.

(** A run of [test_multitask] that returns has evaluated the restored
    model on the dev loaders, then on the test loaders, and left the
    world with the six files written from what the two routines
    returned. *)
Lemma test_multitask_evaluated args w w' :
  test_multitask args w = (Ok tt, w') ->
  exists d config m0 t sd (model : MultitaskBERT) TL dev r1 test r2,
    (disk w !! filepath args = Some (Pickle d)
     /\ d !! "model_config" = Some (VConfig config)
     /\ Bert.init initial_tensor from_pretrained config (torch_rng (rng w))
        = (Ok m0, t)
     /\ d !! "model" = Some sd
     /\ load_state_dict m0 (OValue sd) = Ok model
     /\ test_loaders args = Ok TL)
    /\ model_eval_multitask (sst_dev_loader TL) (para_dev_loader TL)
                            (sts_dev_loader TL) model
                            (set_torch_rng t (rng w)) = (dev, r1)
    /\ model_eval_test_multitask (sst_test_loader TL) (para_test_loader TL)
                                 (sts_test_loader TL) model r1 = (test, r2)
    /\ w'
       = mkWorld r2 (write_all (prediction_files args dev test) (disk w))
           (stdout w
              ++ [("Loaded model to test from " ++ filepath args)%string;
                  ("dev sentiment acc :: "
                     ++ fmt_3f (dev_sentiment_accuracy dev))%string;
                  ("dev paraphrase acc :: "
                     ++ fmt_3f (dev_paraphrase_accuracy dev))%string;
                  ("dev sts corr :: " ++ fmt_3f (dev_sts_corr dev))%string])
           (calls w).
Proof.
  intros Hrun.
  destruct (test_multitask_returned args w w' Hrun)
    as (d & config & m0 & t & sd & model & TL
        & Hd & Hc & Hinit & Hsd & Hload & HTL).
  destruct (model_eval_multitask (sst_dev_loader TL) (para_dev_loader TL)
              (sts_dev_loader TL) model (set_torch_rng t (rng w)))
    as [dev r1] eqn:Hdev.
  destruct (model_eval_test_multitask (sst_test_loader TL)
              (para_test_loader TL) (sts_test_loader TL) model r1)
    as [test r2] eqn:Htest.
  rewrite (test_multitask_run args w d config m0 t sd model TL dev r1
             test r2 Hd Hc Hinit Hsd Hload HTL Hdev Htest) in Hrun.
  injection Hrun as <-.
  by exists d, config, m0, t, sd, model, TL, dev, r1, test, r2.
Qed.

(** C1, as amended: every run of test_multitask that returns has
    evaluated the model restored from the checkpoint on the dev and on
    the test loaders, and has written the six prediction files, in the
    order sst dev, sst test, para dev, para test, sts dev, sts test.
    Each of them begins with the header line "id <TAB> Predicted_<Task> "
    (tab-separated, not comma-separated), followed by one
    "id , prediction " row per example: for each sentence id the
    evaluation routine returned, with its prediction, in that order. *)
Theorem test_multitask_files args w w' :
  test_multitask args w = (Ok tt, w') ->
  exists d config m0 t sd (model : MultitaskBERT) TL dev r1 test r2,
    (disk w !! filepath args = Some (Pickle d)
     /\ d !! "model_config" = Some (VConfig config)
     /\ Bert.init initial_tensor from_pretrained config (torch_rng (rng w))
        = (Ok m0, t)
     /\ d !! "model" = Some sd
     /\ load_state_dict m0 (OValue sd) = Ok model
     /\ test_loaders args = Ok TL)
    /\ model_eval_multitask (sst_dev_loader TL) (para_dev_loader TL)
                            (sts_dev_loader TL) model
                            (set_torch_rng t (rng w)) = (dev, r1)
    /\ model_eval_test_multitask (sst_test_loader TL) (para_test_loader TL)
                                 (sts_test_loader TL) model r1 = (test, r2)
    /\ disk w' = write_all (prediction_files args dev test) (disk w)
    /\ Forall2 (fun pf (tip : string * list string * list Pred) =>
                  let '(task, sent_ids, y_pred) := tip in
                  pf.2
                  = (("id " ++ tab ++ " Predicted_" ++ task ++ " "
                            ++ newline)
                       ++ String.concat ""
                            (map (fun ps =>
                                    ps.1 ++ " , " ++ str_pred ps.2
                                         ++ " " ++ newline)
                                 (zip sent_ids y_pred)))%string
                  /\ (length sent_ids = length y_pred ->
                      length (zip sent_ids y_pred) = length sent_ids))
               (prediction_files args dev test)
               [("Sentiment", dev_sst_sent_ids dev, dev_sst_y_pred dev);
                ("Sentiment", test_sst_sent_ids test, test_sst_y_pred test);
                ("Is_Paraphrase", dev_para_sent_ids dev,
                 dev_para_y_pred dev);
                ("Is_Paraphrase", test_para_sent_ids test,
                 test_para_y_pred test);
                ("Similiary", dev_sts_sent_ids dev, dev_sts_y_pred dev);
                ("Similiary", test_sts_sent_ids test,
                 test_sts_y_pred test)].
Proof.
  intros Hrun.
  destruct (test_multitask_evaluated args w w' Hrun)
    as (d & config & m0 & t & sd & model & TL & dev & r1 & test & r2
        & Hcheckpoint & Hdev & Htest & ->).
  exists d, config, m0, t, sd, model, TL, dev, r1, test, r2.
  split; [exact Hcheckpoint|]. split; [exact Hdev|].
  split; [exact Htest|]. split; [reflexivity|].
  unfold prediction_files.
  repeat (constructor;
          [split; [cbn [snd]; apply prediction_text_shape
                  |intros Hlen; rewrite length_zip_with; lia]|]).
  constructor.
Qed.
End Predictions.

End DriverSpec.

(* ================================================================== *)
(** ** The driver on the closed instance *)
(* ================================================================== *)

Module DriverRuns.
Import Bert Driver DriverSpec.
#[local] Open Scope list_scope.
#[local] Existing Instances Demo.collab Demo.ops.

Lemma step_PCGrad_sequence_witness :
  exists l1 l2 l3 model' optimizer' w',
    step_PCGrad Demo.args Demo.loaders
                (Demo.model, Demo.pcgrad_adam, PyFloat.of_int 0, 0%Z)
                Demo.world0
    = (Ok (model', optimizer',
           PyFloat.add (PyFloat.of_int 0)
                       (item (tensor_add (tensor_add l1 l2) l3)),
           (0 + 1)%Z), w')
    /\ (model', optimizer')
       = effect step
           (effect (pc_backward [l1; l2; l3])
                   (effect zero_grad (Demo.model, Demo.pcgrad_adam)))
    /\ new_calls Demo.world0 w'
       = [zero_grad; pc_backward [l1; l2; l3]; step].
Proof.
  eexists _, _, _.
  eapply (proj2 (step_PCGrad_sequence Demo.args Demo.loaders Demo.model
                   (Demo.pcgrad_adam) (PyFloat.of_int 0) 0%Z Demo.world0)).
  - vm_compute. reflexivity.
  - vm_compute. reflexivity.
Defined.


Lemma sts_phase_raises_type_error_witness :
  exists w',
    sts_phase Demo.args Demo.loaders Demo.config Demo.model None Demo.world0
    = (Raise TypeError, w')
    /\ new_calls Demo.world0 w' = [train_mode; zero_grad]
    /\ disk w' = disk Demo.world0.
Proof.
  apply (proj2 (sts_phase_raises_type_error Demo.args Demo.loaders
                  Demo.config Demo.model None Demo.world0)).
  - reflexivity.
  - vm_compute. discriminate.
Defined.

Lemma run_training_dispatch_witness :
  run_training Demo.args Demo.world0
  = (Ok tt,
     set_stdout (stdout Demo.world0 ++ ["Not training"]) Demo.world0).
Proof.
  apply (proj2 (proj2 (proj2 (run_training_dispatch Demo.args))) "none").
  - reflexivity.
  - discriminate.
  - discriminate.
Defined.

(** Three epochs of [train_PCGrad]'s loop on the closed instance, whose
    dev accuracies are 0.3, 0.2, 0.1, then 0.1, 0.2, 0.3, then 0.3,
    0.2, 0.1 again. In floats the second mean exceeds the first. *)
Lemma three_epochs :
  exists e0 w0e m1 o1 b1 w1 e1 w1e m2 o2 b2 w2 e2 w2e,
    train_and_eval step_PCGrad Demo.args Demo.loaders Demo.model
                   Demo.pcgrad_adam Demo.world0 = (Ok e0, w0e)
    /\ select_and_report optimizer_of Demo.args Demo.config 0%Z
                         (PyFloat.of_int 0) e0 w0e = (Ok (m1, o1, b1), w1)
    /\ train_and_eval step_PCGrad Demo.args Demo.loaders m1 o1 w1
       = (Ok e1, w1e)
    /\ select_and_report optimizer_of Demo.args Demo.config 1%Z b1 e1 w1e
       = (Ok (m2, o2, b2), w2)
    /\ train_and_eval step_PCGrad Demo.args Demo.loaders m2 o2 w2
       = (Ok e2, w2e)
    /\ e_dev_acc e0
       = mean3 (Demo.ratio 3 10) (Demo.ratio 2 10) (Demo.ratio 1 10)
    /\ e_dev_acc e1
       = mean3 (Demo.ratio 1 10) (Demo.ratio 2 10) (Demo.ratio 3 10)
    /\ e_dev_acc e2 = e_dev_acc e0
    /\ PyFloat.lt (PyFloat.of_int 0) (e_dev_acc e0) = true
    /\ PyFloat.lt b1 (e_dev_acc e1) = true
    /\ PyFloat.lt b2 (e_dev_acc e2) = false.
Proof.
  do 14 eexists.
  repeat (split; [vm_compute; reflexivity|]). vm_compute. reflexivity.
Qed.

Lemma checkpoint_saved_iff_improved_witness :
  exists e0 w0e b1 w1 e1 w1e b2 w2 e2 w2e b3 w3,
    (* epoch 0 improves on the initial 0: saved *)
    (PyFloat.lt (PyFloat.of_int 0) (e_dev_acc e0) = true
     /\ b1 = e_dev_acc e0
     /\ disk w1
        = <[filepath Demo.args :=
              Pickle (save_info (e_model e0) (optimizer_of (e_optimizer e0))
                                Demo.args Demo.config (rng w0e))]>
            (disk Demo.world0))
    (* epoch 1: (0.1 + 0.2 + 0.3) / 3 exceeds (0.3 + 0.2 + 0.1) / 3 in
       floats: saved again *)
    /\ (e_dev_acc e0
        = mean3 (Demo.ratio 3 10) (Demo.ratio 2 10) (Demo.ratio 1 10)
        /\ e_dev_acc e1
           = mean3 (Demo.ratio 1 10) (Demo.ratio 2 10) (Demo.ratio 3 10)
        /\ PyFloat.lt b1 (e_dev_acc e1) = true
        /\ b2 = e_dev_acc e1
        /\ disk w2
           = <[filepath Demo.args :=
                 Pickle (save_info (e_model e1)
                                   (optimizer_of (e_optimizer e1))
                                   Demo.args Demo.config (rng w1e))]>
               (disk w1))
    (* epoch 2 does not improve: skipped *)
    /\ (PyFloat.lt b2 (e_dev_acc e2) = false
        /\ b3 = b2
        /\ disk w3 = disk w2
        /\ new_stdout w2e w3
           = [epoch_line 2%Z (e_train_loss e2) (e_train_acc e2)
                         (e_dev_acc e2)]).
Proof.
  destruct three_epochs
    as (e0 & w0e & m1 & o1 & b1 & w1 & e1 & w1e & m2 & o2 & b2 & w2
        & e2 & w2e & Heval0 & Hsel0 & Heval1 & Hsel1 & Heval2
        & Hd0 & Hd1 & Hd2 & Hlt0 & Hlt1 & Hlt2).
  pose proof (run_start step_PCGrad optimizer_of Demo.args Demo.loaders
                Demo.config Demo.model Demo.pcgrad_adam Demo.world0)
    as Hrun0.
  pose proof (run_epoch step_PCGrad optimizer_of Demo.args Demo.loaders
                Demo.config Demo.model Demo.pcgrad_adam Demo.world0
                [] Demo.model Demo.pcgrad_adam (PyFloat.of_int 0)
                Demo.world0 e0 w0e (m1, o1, b1) w1
                Hrun0 Heval0 Hsel0) as Hrun1.
  pose proof (run_epoch step_PCGrad optimizer_of Demo.args Demo.loaders
                Demo.config Demo.model Demo.pcgrad_adam Demo.world0
                ([] ++ [e_dev_acc e0]) m1 o1 b1 w1 e1 w1e (m2, o2, b2) w2
                Hrun1 Heval1 Hsel1) as Hrun2.
  destruct (checkpoint_saved_iff_improved true Demo.args Demo.loaders
              Demo.config Demo.model Demo.pcgrad_adam Demo.world0
              [] Demo.model Demo.pcgrad_adam (PyFloat.of_int 0)
              Demo.world0 e0 w0e Hrun0 Heval0)
    as (_ & _ & b1' & w1' & Hepoch0 & Hsaved0 & _).
  destruct (checkpoint_saved_iff_improved true Demo.args Demo.loaders
              Demo.config Demo.model Demo.pcgrad_adam Demo.world0
              ([] ++ [e_dev_acc e0]) m1 o1 b1 w1 e1 w1e Hrun1 Heval1)
    as (_ & _ & b2' & w2' & Hepoch1 & Hsaved1 & _).
  destruct (checkpoint_saved_iff_improved true Demo.args Demo.loaders
              Demo.config Demo.model Demo.pcgrad_adam Demo.world0
              (([] ++ [e_dev_acc e0]) ++ [e_dev_acc e1]) m2 o2 b2 w2
              e2 w2e Hrun2 Heval2)
    as (_ & _ & b3 & w3 & _ & _ & Hskipped2).
  pose proof (eq_trans
                (eq_sym (eq_trans
                           (epoch_joint_run step_PCGrad optimizer_of
                              Demo.args Demo.loaders Demo.config 0%Z
                              Demo.model Demo.pcgrad_adam
                              (PyFloat.of_int 0) Demo.world0 e0 w0e Heval0)
                           Hsel0))
                Hepoch0) as Hsame0.
  pose proof (eq_trans
                (eq_sym (eq_trans
                           (epoch_joint_run step_PCGrad optimizer_of
                              Demo.args Demo.loaders Demo.config 1%Z
                              m1 o1 b1 w1 e1 w1e Heval1)
                           Hsel1))
                Hepoch1) as Hsame1.
  injection Hsame0 as _ _ <- <-. injection Hsame1 as _ _ <- <-.
  destruct (Hsaved0 Hlt0) as (Hb1 & Hdisk1 & _).
  destruct (Hsaved1 Hlt1) as (Hb2 & Hdisk2 & _).
  destruct (Hskipped2 Hlt2) as (Hb3 & Hdisk3 & Hout3).
  exists e0, w0e, b1, w1, e1, w1e, b2, w2, e2, w2e, b3, w3.
  split; [exact (conj Hlt0 (conj Hb1 Hdisk1))|].
  split; [exact (conj Hd0 (conj Hd1 (conj Hlt1 (conj Hb2 Hdisk2))))|].
  exact (conj Hlt2 (conj Hb3 (conj Hdisk3 Hout3))).
Defined.

(** C1, as stated, fails: on a run of test_multitask that returns, the
    sst dev file does not begin with a header of the comma-separated
    form "id , Predicted_<Task>", whatever the task name. *)
Lemma prediction_header_not_comma_separated :
  exists w' text,
    test_multitask Demo.args Demo.world1 = (Ok tt, w')
    /\ disk w' !! sst_dev_out Demo.args = Some (Text text)
    /\ forall task,
         String.prefix ("id , Predicted_" ++ task)%string text = false.
Proof.
  eexists _, _. split; [vm_compute; reflexivity|].
  split; [vm_compute; reflexivity|]. intros task. reflexivity.
Qed.

Lemma test_multitask_files_witness :
  exists w' TL model r,
    test_multitask Demo.args Demo.world1 = (Ok tt, w')
    /\ test_loaders Demo.args = Ok TL
    /\ disk w'
       = write_all
           (prediction_files Demo.args
              (model_eval_multitask (sst_dev_loader TL) (para_dev_loader TL)
                                    (sts_dev_loader TL) model r).1
              Demo.test)
           (disk Demo.world1)
    /\ disk w' !! sst_dev_out Demo.args
       = Some (Text (header_line "Sentiment" ++ row_line "s0" "3"
                       ++ row_line "s1" "1")%string).
Proof.
  assert (exists w', test_multitask Demo.args Demo.world1 = (Ok tt, w'))
    as [w' Hrun] by (eexists; vm_compute; reflexivity).
  destruct (test_multitask_files Demo.args Demo.world1 w' Hrun)
    as (d & config & m0 & t & sd & model & TL & dev & r1 & test & r2
        & (_ & _ & _ & _ & _ & HTL) & Hdev & Htest & Hdisk & _).
  exists w', TL, model, (set_torch_rng t (rng Demo.world1)).
  split; [exact Hrun|]. split; [exact HTL|].
  rewrite Hdev. cbn [fst].
  assert (test = Demo.test) as <-
    by (change Demo.test with
          (model_eval_test_multitask (sst_test_loader TL)
             (para_test_loader TL) (sts_test_loader TL) model r1).1;
        by rewrite Htest).
  split; [exact Hdisk|].
  assert (dev = Demo.dev) as ->
    by (change Demo.dev with
          (model_eval_multitask (sst_dev_loader TL) (para_dev_loader TL)
             (sts_dev_loader TL) model
             (set_torch_rng t (rng Demo.world1))).1;
        by rewrite Hdev).
  rewrite Hdisk. vm_compute. reflexivity.
Defined.
End DriverRuns.

(* ================================================================== *)
(** ** Gradient surgery: the pairwise projection *)
(* ================================================================== *)

Module SurgerySpec.
Import Surgery.
#[local] Open Scope list_scope.

Lemma scale_zero (g : Grad) : scale 0 g = replicate (length g) 0.
Proof.
  induction g as [|x g IH]; simpl; [done|].
  rewrite IH. f_equal. ring.
Qed.

Lemma sub_zeros (pg : Grad) n :
  (length pg <= n)%nat -> sub pg (replicate n 0) = pg.
Proof.
  revert n. induction pg as [|x pg IH]; intros [|n] Hn; simpl in *;
    [done|done|lia|].
  unfold sub in *. simpl. rewrite IH by lia. f_equal. ring.
Qed.

(** The formula with a zero coefficient changes nothing. *)
Lemma projection_orthogonal (pg g : Grad) :
  length pg = length g -> dot pg g = 0 -> projection pg g = pg.
Proof.
  intros Hlen Hdot. unfold projection.
  rewrite Hdot. replace (0 / norm2 g) with 0 by (unfold Qcdiv; ring).
  rewrite scale_zero, sub_zeros; [done|lia].
Qed.

Lemma project_returns (pg g : Grad) :
  norm2 g <> 0 -> exists pg', project pg g = Ok pg'.
Proof.
  intros Hnorm. unfold project. rewrite bool_decide_eq_false_2 by done.
  eauto.
Qed.

(** The pairwise step never raises. *)
Lemma pair_step_returns (pg g : Grad) :
  exists pg' notes, pair_step pg g = Ok (pg', notes).
Proof.
  unfold pair_step. case_bool_decide as Hnorm; [eauto|].
  case_bool_decide; [|eauto].
  destruct (project_returns pg g Hnorm) as [pg' ->]. eauto.
Qed.

Lemma sweep_step_returns gs st ij :
  exists st', sweep_step gs st ij = Ok st'.
Proof.
  unfold sweep_step.
  destruct (st.1 !! ij.1) as [pg|]; [|eauto].
  destruct (gs !! ij.2) as [g|]; [|eauto].
  destruct (pair_step_returns pg g) as (pg' & notes & ->). eauto.
Qed.

Lemma sweep_returns gs order :
  forall st, exists st', sweep gs order st = Ok st'.
Proof.
  induction order as [|ij order IH]; intros st; simpl; [eauto|].
  destruct (sweep_step_returns gs st ij) as [st' ->]. apply IH.
Qed.

Lemma compute_combined_gradients_returns gs shuffle g0 :
  head gs = Some g0 ->
  Forall (fun g => length g = length g0) gs ->
  exists combined notes,
    compute_combined_gradients gs shuffle = Ok (combined, notes).
Proof.
  intros Hhead Hlen. destruct gs as [|g gs']; [done|].
  injection Hhead as ->. unfold compute_combined_gradients.
  rewrite bool_decide_eq_true_2 by done.
  match goal with
  | |- context [sweep ?a ?b ?c] =>
      destruct (sweep_returns a b c) as [[pgs notes] ->]
  end.
  eauto.
Qed.

(** C9: when the reference gradient g_j has zero norm, the pairwise
    projection step raises nothing: the projection is skipped (and
    logged) and pg_i is returned unchanged; so the step of the sweep for
    such a pair (i, j) leaves every projected gradient as it was. *)
Theorem zero_norm_pair_is_skipped (gs : list Grad)
    (st : list Grad * list Note) (i j : nat) (pg g : Grad) :
  st.1 !! i = Some pg ->
  gs !! j = Some g ->
  norm2 g = 0 ->
  pair_step pg g = Ok (pg, [skipped_zero_norm])
  /\ sweep_step gs st (i, j) = Ok (st.1, st.2 ++ [skipped_zero_norm]).
Proof.
  intros Hi Hj Hnorm.
  assert (pair_step pg g = Ok (pg, [skipped_zero_norm])) as Hpair.
  { unfold pair_step. by rewrite bool_decide_eq_true_2. }
  split; [done|].
  unfold sweep_step. simpl. rewrite Hi, Hj, Hpair.
  by rewrite list_insert_id.
Qed.

Lemma zero_norm_pair_is_skipped_witness :
  pair_step [1; 1] [0; 0] = Ok ([1; 1], [skipped_zero_norm])
  /\ sweep_step [[1; 1]; [0; 0]] ([[1; 1]; [0; 0]], []) (0, 1)%nat
     = Ok ([[1; 1]; [0; 0]], [] ++ [skipped_zero_norm]).
Proof.
  apply (zero_norm_pair_is_skipped [[1; 1]; [0; 0]]
           ([[1; 1]; [0; 0]], []) 0%nat 1%nat [1; 1] [0; 0]).
  - reflexivity.
  - reflexivity.
  - vm_compute. reflexivity.
Defined.

(** C10: the pairwise projection operation is idempotent against an
    orthogonal pair. For every pg_i and g_j whose dot product is zero,
    or positive, the pairwise step performs no projection: it returns
    pg_i unchanged, whatever the norm of g_j, so that applying it again
    returns the same. And the projection formula
    pg_i - (dot(pg_i, g_j) / ||g_j||^2) * g_j, applied to gradients over
    the same parameters with dot(pg_i, g_j) = 0, leaves pg_i unchanged. *)
Theorem projection_idempotent_when_orthogonal (pg g : Grad) :
  (0 <= dot pg g ->
   exists notes,
     pair_step pg g = Ok (pg, notes)
     /\ forall pg' notes',
         pair_step pg g = Ok (pg', notes') ->
         pair_step pg' g = Ok (pg', notes'))
  /\ (dot pg g = 0 -> length pg = length g -> projection pg g = pg).
Proof.
  split.
  - intros Hdot.
    assert (exists notes, pair_step pg g = Ok (pg, notes)) as [notes Hstep].
    { unfold pair_step. case_bool_decide; [eauto|].
      rewrite bool_decide_eq_false_2; [eauto|]. by apply Qcle_not_lt. }
    exists notes. split; [exact Hstep|].
    intros pg' notes' Hstep'. rewrite Hstep in Hstep'.
    injection Hstep' as <- <-. exact Hstep.
  - intros Hdot Hlen. by apply projection_orthogonal.
Qed.

Lemma projection_idempotent_when_orthogonal_witness :
  (exists notes, pair_step [1; 0] [0; 1] = Ok ([1; 0], notes))
  /\ projection [1; 0] [0; 1] = [1; 0]
  /\ (exists notes, pair_step [1] [0] = Ok ([1], notes))
  /\ projection [1] [0] = [1].
Proof.
  destruct (projection_idempotent_when_orthogonal [1; 0] [0; 1])
    as [Hstep Hformula].
  destruct (projection_idempotent_when_orthogonal [1] [0])
    as [Hstep0 Hformula0].
  split.
  { destruct Hstep as (notes & Hnotes & _); [vm_compute; discriminate|].
    by exists notes. }
  split; [apply Hformula; [by vm_compute|reflexivity]|].
  split.
  { destruct Hstep0 as (notes & Hnotes & _); [vm_compute; discriminate|].
    by exists notes. }
  apply Hformula0; [by vm_compute|reflexivity].
Defined.

End SurgerySpec.

(* ================================================================== *)
(** ** The driver: steps, epochs and whole procedures *)
(* ================================================================== *)

Module DriverMore.
Import Bert Driver Observe DriverSpec.
#[local] Open Scope list_scope.

Section Facts.
Context `{C : Collab} {O : @Ops C}.
Abbreviation MultitaskBERT := (Bert.MultitaskBERT Tensor).

(** X6: an epoch of the paraphrase phase computes no train accuracy:
    when it returns, the train acc of its report is the value carried in
    from the sentiment phase, which it passes on unchanged. *)
Theorem epoch_para_reports_carried_train_acc args L config epoch
    (model : MultitaskBERT) optimizer best_dev_acc train_acc s' w w' :
  epoch_para args L config epoch (model, optimizer, best_dev_acc, train_acc) w
  = (Ok s', w') ->
  exists acc train_loss dev_acc,
    train_acc = Some acc
    /\ s'.2 = Some acc
    /\ list.last (stdout w') = Some (epoch_line epoch train_loss acc dev_acc).
Proof.
  unfold epoch_para. rewrite bind_run. unfold invoke at 1.
  destruct (effect train_mode (model, optimizer)) as [m1 o1].
  rewrite bind_run.
  destruct (for_ _ _ _ _) as [[[[[m2 o2] tl] nb]|err] w2]; [|done].
  rewrite bind_run. unfold true_div. case_bool_decide; [done|]. cbn [ret].
  rewrite bind_run, sample_run. cbn [rng set_rng].
  destruct (model_eval_para _ _ _) as [[dev f1] r]. cbn [fst snd].
  unfold finish_epoch. rewrite bind_run, keep_best_run.
  destruct train_acc as [acc|].
  - intros Hrun. exists acc, (PyFloat.div tl (PyFloat.of_int nb)), dev.
    split; [done|].
    destruct (PyFloat.lt best_dev_acc dev);
      rewrite ?save_model_run in Hrun; cbn [fst snd] in Hrun;
      rewrite bind_run in Hrun; unfold print in Hrun;
      injection Hrun as <- <-; simpl; by rewrite last_snoc.
  - by destruct (PyFloat.lt best_dev_acc dev).
Qed.

(** X1: a step of train_simultaneous never calls pc_backward; when its
    batches and three losses are computed it calls zero_grad, then
    backward on the sum l1 + l2 + l3, then step, and adds that sum to
    train_loss. *)
Theorem step_simultaneous_sequence args L (model : MultitaskBERT) optimizer
    train_loss num_batches w :
  (forall losses,
      pc_backward losses ∉
        new_calls w (step_simultaneous args L
                       (model, optimizer, train_loss, num_batches) w).2)
  /\ (forall b1 b2 b3 w1 l1 l2 l3 w2,
        three_batches L w = (Ok (b1, b2, b3), w1) ->
        three_losses args (effect zero_grad (model, optimizer)).1 b1 b2 b3
                     (set_calls (calls w1 ++ [zero_grad]) w1)
        = (Ok (l1, l2, l3), w2) ->
        exists model' optimizer' w',
          step_simultaneous args L
                            (model, optimizer, train_loss, num_batches) w
          = (Ok (model', optimizer',
                 PyFloat.add train_loss
                   (item (tensor_add (tensor_add l1 l2) l3)),
                 (num_batches + 1)%Z), w')
          /\ (model', optimizer')
             = effect step (effect (backward (tensor_add (tensor_add l1 l2) l3))
                                   (effect zero_grad (model, optimizer)))
          /\ new_calls w w'
             = [zero_grad; backward (tensor_add (tensor_add l1 l2) l3);
                step]).
Proof.
  rewrite step_simultaneous_run. unfold new_calls.
  pose proof (three_batches_keeps_calls L w) as Hb.
  destruct (three_batches L w) as [[[[b1 b2] b3]|e] w1]; simpl in Hb.
  2:{ split; [|discriminate]. simpl. rewrite Hb, drop_all. no_backward. }
  pose proof (three_losses_keeps_calls args
                (effect zero_grad (model, optimizer)).1 b1 b2 b3
                (set_calls (calls w1 ++ [zero_grad]) w1)) as Hl.
  simpl.
  destruct (three_losses args _ b1 b2 b3 _)
    as [[[[l1 l2] l3]|e] w2] eqn:Hrun; simpl in Hl.
  2:{ split.
      - simpl. rewrite Hl, Hb, drop_app_length. no_backward.
      - intros ? ? ? ? ? ? ? ? [= <- <- <- <-] Hloss. congruence. }
  split.
  - simpl. rewrite Hl, Hb, <- app_assoc, drop_app_length. no_backward.
  - intros ? ? ? ? ? ? ? ? [= <- <- <- <-] Hloss.
    rewrite Hrun in Hloss. injection Hloss as <- <- <- <-.
    eexists _, _, _. split; [reflexivity|]. split.
    + by destruct (effect step _).
    + simpl. by rewrite Hl, Hb, <- app_assoc, drop_app_length.
Qed.

(** A joint step that returns made its three calls around the three
    losses, and added the item of their sum to [train_loss]. *)
Lemma joint_step_returned pcgrad args L (model : MultitaskBERT) optimizer
    train_loss num_batches w s' w' :
  joint_step pcgrad args L (model, optimizer, train_loss, num_batches) w
  = (Ok s', w') ->
  exists l,
    s'.1.2 = PyFloat.add train_loss (item (loss_sum l))
    /\ s'.2 = (num_batches + 1)%Z
    /\ calls w' = calls w ++ joint_step_calls pcgrad l
    /\ disk w' = disk w.
Proof.
  unfold joint_step.
  pose proof (three_batches_keeps_calls L w) as Hbc.
  pose proof (three_batches_keeps_disk L w) as Hbd.
  destruct pcgrad;
    [rewrite step_PCGrad_run|rewrite step_simultaneous_run];
    (destruct (three_batches L w) as [[[[b1 b2] b3]|e] w1]; [|done]);
    cbv zeta;
    match goal with
    | |- context [three_losses ?a ?m b1 b2 b3 ?w0] =>
        pose proof (three_losses_keeps_calls a m b1 b2 b3 w0) as Hlc;
        pose proof (three_losses_keeps_disk a m b1 b2 b3 w0) as Hld;
        destruct (three_losses a m b1 b2 b3 w0)
          as [[[[l1 l2] l3]|e] w2]; [|done]
    end;
    intros [= <- <-]; exists (l1, l2, l3); simpl in *;
    rewrite Hlc, Hld, Hbc, Hbd, <- app_assoc; done.
Qed.

Lemma joint_loop_returned pcgrad args L {A} (xs : list A) :
  forall (s : Inner) w s' w',
    for_ xs (fun _ => joint_step pcgrad args L) s w = (Ok s', w') ->
    exists ls,
      length ls = length xs
      /\ s'.1.2
         = foldl (fun train_loss l =>
                    PyFloat.add train_loss (item (loss_sum l))) s.1.2 ls
      /\ s'.2 = (s.2 + Z.of_nat (length xs))%Z
      /\ calls w' = calls w ++ concat (map (joint_step_calls pcgrad) ls)
      /\ disk w' = disk w.
Proof.
  induction xs as [|x xs IH]; intros s w s' w' Hrun.
  - injection Hrun as <- <-. exists []. simpl.
    rewrite Z.add_0_r, app_nil_r. done.
  - destruct s as [[[model optimizer] train_loss] num_batches].
    cbn [for_] in Hrun. rewrite bind_run in Hrun.
    destruct (joint_step pcgrad args L _ w) as [[s1|e] w1] eqn:Hstep;
      [|done].
    destruct (joint_step_returned _ _ _ _ _ _ _ _ _ _ Hstep)
      as (l & Htl & Hnb & Hc & Hd).
    destruct (IH _ _ _ _ Hrun) as (ls & Hlen & Htl' & Hnb' & Hc' & Hd').
    exists (l :: ls). simpl in *.
    rewrite Hlen, Htl', Htl, Hnb', Hnb, Hc', Hc, Hd', Hd, <- app_assoc.
    repeat split; lia.
Qed.

Lemma range_length n : length (range n) = Z.to_nat n.
Proof. unfold range. by rewrite length_map, length_seq. Qed.

(** X2: an epoch of a joint procedure ([train_PCGrad] for pcgrad = true,
    [train_simultaneous] for false) that reaches its evaluation has made
    exactly 1000 steps, whatever the size of the data: after train_mode
    its calls are 1000 triples zero_grad, backward pass, step, and the
    train loss it reports is the float sum, from 0 and in the order of
    the steps, of the items of l1 + l2 + l3, divided by 1000. *)
Theorem joint_epoch_steps pcgrad args L (model : MultitaskBERT) optimizer
    w e w1 :
  train_and_eval (joint_step pcgrad) args L model optimizer w = (Ok e, w1) ->
  exists ls,
    length ls = 1000%nat
    /\ new_calls w w1
       = train_mode :: concat (map (joint_step_calls pcgrad) ls)
    /\ e_train_loss e
       = PyFloat.div
           (foldl (fun train_loss l =>
                     PyFloat.add train_loss (item (loss_sum l)))
                  (PyFloat.of_int 0) ls)
           (PyFloat.of_int 1000).
Proof.
  unfold train_and_eval. rewrite bind_run. unfold invoke at 1.
  destruct (effect train_mode (model, optimizer)) as [m1 o1].
  rewrite bind_run.
  destruct (for_ _ _ _ _) as [[[[[m2 o2] tl] nb]|err] w2] eqn:Hloop;
    [|done].
  destruct (joint_loop_returned _ _ _ _ _ _ _ _ Hloop)
    as (ls & Hlen & Htl & Hnb & Hc & _).
  rewrite range_length in Hlen, Hnb. simpl in Htl, Hnb, Hc.
  rewrite bind_run. unfold true_div. subst nb.
  rewrite bool_decide_eq_false_2 by done. cbn [ret].
  repeat (rewrite bind_run, sample_run; cbn [rng set_rng];
          match goal with
          | |- context [(?f ?l ?m ?r).1] =>
              destruct (f l m r) as [[? ?] ?]; cbn [fst snd]
          end).
  intros [= <- <-]. exists ls. split; [done|]. unfold new_calls. simpl.
  rewrite Hc, <- app_assoc, drop_app_length. by rewrite Htl.
Qed.

Lemma step_sst_run args batch (model : MultitaskBERT) optimizer
    train_loss num_batches w :
  exists l model' optimizer' w',
    step_sst args batch (model, optimizer, train_loss, num_batches) w
    = (Ok (model', optimizer', PyFloat.add train_loss (item l),
           (num_batches + 1)%Z), w')
    /\ calls w' = calls w ++ single_step_calls l
    /\ disk w' = disk w /\ stdout w' = stdout w.
Proof.
  unfold step_sst, predict_sentiment, forward, mbind, M_bind, bind, invoke.
  destruct (effect zero_grad (model, optimizer)) as [m1 o1].
  repeat (rewrite sample_run; simpl).
  match goal with
  | |- context [effect (backward ?l) ?t] =>
      destruct (effect (backward l) t) as [m2 o2]; exists l
  end.
  destruct (effect step (m2, o2)) as [m3 o3].
  eexists _, _, _. split; [reflexivity|]. simpl.
  by rewrite <- !app_assoc.
Qed.

Lemma sst_loop args (batches : list Batch) :
  forall (s : Inner) w,
    exists ls s' w',
      for_ batches (step_sst args) s w = (Ok s', w')
      /\ length ls = length batches
      /\ s'.2 = (s.2 + Z.of_nat (length batches))%Z
      /\ calls w' = calls w ++ concat (map single_step_calls ls)
      /\ disk w' = disk w /\ stdout w' = stdout w.
Proof.
  induction batches as [|b bs IH]; intros s w.
  - exists [], s, w. simpl. rewrite Z.add_0_r, app_nil_r. done.
  - destruct s as [[[model optimizer] train_loss] num_batches].
    cbn [for_]. rewrite bind_run.
    destruct (step_sst_run args b model optimizer train_loss num_batches w)
      as (l & m' & o' & w1 & -> & Hc & Hd & Ho).
    destruct (IH (m', o', PyFloat.add train_loss (item l),
                  (num_batches + 1)%Z) w1)
      as (ls & s' & w' & -> & Hlen & Hnb & Hc' & Hd' & Ho').
    exists (l :: ls), s', w'. split; [done|]. simpl in *.
    rewrite Hlen, Hnb, Hc', Hc, Hd', Hd, Ho', Ho, <- app_assoc.
    repeat split; [lia].
Qed.

(** X4: an epoch of the sentiment phase whose loader yields at least one
    batch returns, and makes one optimizer step per batch: after
    train_mode its calls are, per batch, zero_grad, backward on that
    batch's loss, step. *)
Theorem epoch_sst_one_step_per_batch args L config epoch (s : Outer) w :
  (iterate (sst_train_dataloader L) (rng w)).1 <> [] ->
  exists ls s' w',
    epoch_sst args L config epoch s w = (Ok s', w')
    /\ length ls = length (iterate (sst_train_dataloader L) (rng w)).1
    /\ new_calls w w' = train_mode :: concat (map single_step_calls ls).
Proof.
  intros Hne. destruct s as [[[model optimizer] best] acc].
  destruct (epoch_sst _ _ _ _ _ _) as [o w'] eqn:Hrun.
  unfold epoch_sst in Hrun. rewrite bind_run in Hrun.
  unfold invoke at 1 in Hrun.
  destruct (effect train_mode (model, optimizer)) as [m1 o1].
  rewrite bind_run, sample_run in Hrun. cbn [rng set_calls fst snd] in Hrun.
  destruct (iterate (sst_train_dataloader L) (rng w)) as [batches r].
  cbn [fst snd] in *. rewrite bind_run in Hrun.
  destruct (sst_loop args batches (m1, o1, PyFloat.of_int 0, 0%Z)
              (set_rng r (set_calls (calls w ++ [train_mode]) w)))
    as (ls & [[[m2 o2] tl] nb] & w2 & Hloop & Hlen & Hnb & Hc & Hd & _).
  rewrite Hloop in Hrun. simpl in Hnb, Hc, Hd.
  rewrite bind_run in Hrun. unfold true_div in Hrun. subst nb.
  rewrite bool_decide_eq_false_2 in Hrun
    by (destruct batches; [done|simpl; lia]).
  cbn [ret] in Hrun.
  repeat (rewrite bind_run, sample_run in Hrun;
          cbn [rng set_rng] in Hrun;
          match type of Hrun with
          | context [(?f ?l ?m ?r).1] =>
              destruct (f l m r) as [[? ?] ?]; cbn [fst snd] in Hrun
          end).
  unfold finish_epoch in Hrun. rewrite bind_run, keep_best_run in Hrun.
  exists ls. unfold new_calls.
  match type of Hrun with
  | context [PyFloat.lt ?a ?b] => destruct (PyFloat.lt a b)
  end;
    rewrite ?save_model_run in Hrun;
    cbn [fst snd] in Hrun; rewrite bind_run in Hrun;
    unfold print in Hrun; injection Hrun as <- <-;
    eexists _, _; (split; [reflexivity|]); (split; [done|]); simpl;
    by rewrite Hc, <- app_assoc, drop_app_length.
Qed.

(** A training procedure starts with the loaders, then the model. *)
Lemma train_loaders_refused args e w :
  train_loaders args = Raise e ->
  train_multitask args w = (Raise e, w)
  /\ train_simultaneous args w = (Raise e, w)
  /\ train_PCGrad args w = (Raise e, w).
Proof.
  intros HL.
  repeat split;
    unfold train_multitask, train_simultaneous, train_PCGrad, train_joint;
    rewrite bind_run; unfold of_outcome at 1; by rewrite HL.
Qed.

(** The sizes [para_loss] compares, for logits of size [n, 1] and
    [n] labels: they differ exactly when [n = 1]. *)
Lemma squeeze_column n :
  squeeze [n; 1%nat] = if decide (n = 1%nat) then [] else [n].
Proof.
  unfold squeeze. cbn [filter list_filter].
  repeat case_decide; try done; congruence.
Qed.

(** X3: para_loss squeezes the logits before the loss kernel, so on a
    batch of one pair, whose logits have size [1, 1],
    binary_cross_entropy gets an input without dimension and a target of
    one element, and raises ValueError; on logits of size [n, 1] with
    n other than 1 and n labels it returns the summed loss divided by
    the batch size. So a step of the paraphrase phase whose batch holds
    one pair fails with ValueError after zero_grad, before backward and
    step, and writes nothing. *)
Theorem para_loss_one_pair_batch args L (model : MultitaskBERT) optimizer
    train_loss num_batches w :
  (forall n logits b_labels w0,
      shape logits = [n; 1%nat] ->
      foldr Nat.mul 1%nat (shape b_labels) = n ->
      call para_loss [ATensor logits; ATensor b_labels; AArgs args] w0
      = (if decide (n = 1%nat) then Raise ValueError
         else Ok (tensor_div (binary_cross_entropy_sum logits b_labels)
                             (para_batch_size args)),
         w0))
  /\ (forall batch w1 logits w2,
        next_iter (para_train_dataloader L) w = (Ok batch, w1) ->
        pair_logits predict_paraphrase
                    (effect zero_grad (model, optimizer)).1 batch
                    (set_calls (calls w1 ++ [zero_grad]) w1)
        = (Ok logits, w2) ->
        shape logits = [1%nat; 1%nat] ->
        foldr Nat.mul 1%nat (shape (getitem batch "labels")) = 1%nat ->
        step_para args L (model, optimizer, train_loss, num_batches) w
        = (Raise ValueError, w2)
        /\ new_calls w w2 = [zero_grad]
        /\ disk w2 = disk w).
Proof.
  assert (forall n logits b_labels w0,
             shape logits = [n; 1%nat] ->
             foldr Nat.mul 1%nat (shape b_labels) = n ->
             call para_loss [ATensor logits; ATensor b_labels; AArgs args] w0
             = (if decide (n = 1%nat) then Raise ValueError
                else Ok (tensor_div
                           (binary_cross_entropy_sum logits b_labels)
                           (para_batch_size args)),
                w0)) as Hloss.
  { intros n logits b_labels w0 Hshape Hnumel.
    unfold call, para_loss. cbn [formals body length].
    rewrite bool_decide_eq_true_2 by done. unfold of_outcome.
    rewrite Hshape, squeeze_column. unfold view_flat. rewrite Hnumel.
    destruct (decide (n = 1%nat)) as [->|Hn].
    - by rewrite bool_decide_eq_false_2.
    - by rewrite bool_decide_eq_true_2. }
  split; [exact Hloss|].
  intros batch w1 logits w2 Hnext Hlogits Hshape Hnumel.
  pose proof (next_iter_keeps_calls (para_train_dataloader L) w) as Hc1.
  pose proof (next_iter_keeps_disk (para_train_dataloader L) w) as Hd1.
  rewrite Hnext in Hc1, Hd1. cbn [snd] in Hc1, Hd1.
  pose proof (pair_paraphrase_keeps_calls
                (effect zero_grad (model, optimizer)).1 batch
                (set_calls (calls w1 ++ [zero_grad]) w1)) as Hc2.
  pose proof (pair_paraphrase_keeps_disk
                (effect zero_grad (model, optimizer)).1 batch
                (set_calls (calls w1 ++ [zero_grad]) w1)) as Hd2.
  rewrite Hlogits in Hc2, Hd2. cbn [snd calls disk set_calls] in Hc2, Hd2.
  split; [|split].
  - unfold step_para. rewrite bind_run, Hnext. cbv beta iota.
    rewrite bind_run. unfold invoke at 1.
    destruct (effect zero_grad (model, optimizer)) as [m1 o1].
    cbn [fst] in Hlogits. cbv beta iota.
    rewrite bind_run, Hlogits. cbv beta iota.
    rewrite bind_run, (Hloss 1%nat logits _ w2 Hshape Hnumel). done.
  - unfold new_calls. by rewrite Hc2, Hc1, drop_app_length.
  - by rewrite Hd2, Hd1.
Qed.

(** X5: a sentiment epoch is never entered without data: when the
    sentiment training set has no example, its DataLoader, built with
    shuffle=True, is refused, and each training procedure fails with
    ValueError before the model is constructed, before model.train()
    and before anything is printed or written. *)
Theorem empty_training_set_is_refused args sst_train_data num_labels
    para_train_data sts_train_data dev_data w :
  load_multitask_data (sst_train args) (para_train args) (sts_train args)
                      "train"
  = Ok (sst_train_data, num_labels, para_train_data, sts_train_data) ->
  load_multitask_data (sst_dev args) (para_dev args) (sts_dev args) "train"
  = Ok dev_data ->
  dataset_len (SentenceClassificationDataset sst_train_data args) = 0%nat ->
  train_multitask args w = (Raise ValueError, w)
  /\ train_simultaneous args w = (Raise ValueError, w)
  /\ train_PCGrad args w = (Raise ValueError, w).
Proof.
  intros Htrain Hdev Hlen. apply train_loaders_refused.
  unfold train_loaders. rewrite Htrain. cbn [and_then]. rewrite Hdev.
  destruct dev_data as [[[? ?] ?] ?]. cbn [and_then].
  unfold new_DataLoader at 1. rewrite Hlen.
  by rewrite bool_decide_eq_true_2.
Qed.


(** X12: with a fine_tune_mode other than the two valid ones, each of
    the three training procedures fails before it prints, calls the
    optimizer or touches the disk or a generator: with the
    AssertionError of the constructor once the data is loaded and the
    loaders are built, and otherwise with the exception of the loading
    or of the refused loader. *)
Theorem training_rejects_invalid_mode args w :
  args_fine_tune_mode args ∉ valid_modes ->
  let o := match train_loaders args with
           | Ok _ => Raise AssertionError
           | Raise e => Raise e
           end in
  train_multitask args w = (o, w)
  /\ train_simultaneous args w = (o, w)
  /\ train_PCGrad args w = (o, w).
Proof.
  intros Hmode. cbv zeta.
  destruct (train_loaders args) as [L|e] eqn:HL;
    [|by apply train_loaders_refused].
  repeat split;
    unfold train_multitask, train_simultaneous, train_PCGrad, train_joint;
    rewrite bind_run; unfold of_outcome at 1; rewrite HL;
    cbv beta iota zeta; rewrite bind_run, construct_run; cbv zeta;
    rewrite (BertSpec.init_rejects _ _ (train_config args L)) by done;
    cbn [fst snd]; by rewrite set_rng_same.
Qed.


(** X8: test_multitask fails before loading data or writing any file
    when there is no file at args.filepath (FileNotFoundError, nothing
    changed), when the checkpoint has no model_config entry (KeyError,
    nothing changed), and when its model_config builds a model but it
    has no model entry (KeyError; the construction of the heads has
    advanced the torch generator, and nothing else has changed). *)
Theorem test_multitask_needs_checkpoint args w :
  (disk w !! filepath args = None ->
   test_multitask args w = (Raise FileNotFoundError, w))
  /\ (forall d, disk w !! filepath args = Some (Pickle d) ->
                d !! "model_config" = None ->
                test_multitask args w = (Raise KeyError, w))
  /\ (forall d c m t,
        disk w !! filepath args = Some (Pickle d) ->
        d !! "model_config" = Some (VConfig c) ->
        Bert.init initial_tensor from_pretrained c (torch_rng (rng w))
        = (Ok m, t) ->
        d !! "model" = None ->
        test_multitask args w
        = (Raise KeyError, set_rng (set_torch_rng t (rng w)) w)).
Proof.
  unfold test_multitask, torch_load, subscript. repeat split.
  - intros Hnone. rewrite bind_run, Hnone. done.
  - intros d Hd Hk. rewrite bind_run, Hd. cbv beta iota.
    rewrite bind_run, Hk. done.
  - intros d c m t Hd Hc Hm Hk. rewrite bind_run, Hd. cbv beta iota.
    rewrite bind_run, Hc. cbn [ret]. rewrite bind_run.
    cbn [as_config ret]. rewrite bind_run, construct_run, Hm.
    cbn [fst snd]. rewrite bind_run, Hk. done.
Qed.

(** X10: with a train_type other than None, "simultaneous" and
    "pcgrad", and no file at the path the main block chooses (model_path
    if given, else the default name): when the seed is between 0 and
    2**32 - 1 the run seeds the three generators, prints "Not training"
    and fails in test_multitask with FileNotFoundError; otherwise it
    fails in seed_everything with the ValueError of np.random.seed,
    after random.seed and before anything is printed. Nothing is
    written in either case. *)
Theorem main_not_training_needs_checkpoint args t w :
  train_type args = Some t ->
  t <> "simultaneous" -> t <> "pcgrad" ->
  disk w !! chosen_filepath args = None ->
  main args w
  = if bool_decide (0 <= seed args < 2 ^ 32)%Z
    then (Raise FileNotFoundError,
          set_stdout (stdout w ++ ["Not training"])
            (set_rng (mkRngs (random_seed (seed args))
                             (np_random_seed (seed args))
                             (torch_manual_seed (seed args))) w))
    else (Raise ValueError,
          set_rng (mkRngs (random_seed (seed args)) (numpy_rng (rng w))
                          (torch_rng (rng w))) w).
Proof.
  intros Ht H1 H2 Hnone. unfold main, chosen_filepath in *.
  apply String.eqb_neq in H1, H2.
  destruct (model_path args) as [path|]; cbv zeta;
    rewrite bind_run; unfold seed_everything; cbn [seed set_filepath];
    (case_bool_decide; [|done]);
    rewrite bind_run; unfold run_training; simpl; rewrite Ht, H1, H2;
    unfold print; unfold test_multitask, torch_load; rewrite bind_run;
    simpl; by rewrite Hnone.
Qed.

(** [test_multitask] when the checkpoint is read and the model restored,
    but the data does not load or a loader is refused. *)
Lemma test_multitask_loaders_refused args w d config m0 t sd
    (model : MultitaskBERT) e :
  disk w !! filepath args = Some (Pickle d) ->
  d !! "model_config" = Some (VConfig config) ->
  Bert.init initial_tensor from_pretrained config (torch_rng (rng w))
  = (Ok m0, t) ->
  d !! "model" = Some sd ->
  load_state_dict m0 (OValue sd) = Ok model ->
  test_loaders args = Raise e ->
  exists w', test_multitask args w = (Raise e, w') /\ disk w' = disk w.
Proof.
  intros Hd Hc Hinit Hsd Hload HTL.
  unfold test_multitask, torch_load. rewrite bind_run, Hd. cbv beta iota.
  unfold subscript. rewrite bind_run, Hc. cbn [ret].
  rewrite bind_run. cbn [as_config ret].
  rewrite bind_run, construct_run, Hinit. cbn [fst snd].
  rewrite bind_run, Hsd. cbn [ret].
  rewrite bind_run. unfold of_outcome at 1. rewrite Hload.
  rewrite bind_run. unfold print at 1.
  rewrite bind_run. unfold of_outcome at 1. rewrite HTL.
  eexists. split; reflexivity.
Qed.

(** X7: a checkpoint written by save_model at args.filepath is one
    test_multitask can use: torch.load returns the saved dictionary, and
    provided the saved config builds a model into which the saved state
    loads, test_multitask evaluates that model and writes its six files
    as soon as its data loads and its loaders are built; if not, it
    fails with the exception of the loading or of the refused loader,
    having written nothing. *)
Theorem saved_checkpoint_can_be_tested (model : MultitaskBERT) optimizer
    saved_args config args w m t m' :
  Bert.init initial_tensor from_pretrained config (torch_rng (rng w))
  = (Ok m, t) ->
  load_state_dict m (OValue (VModel (state_dict model))) = Ok m' ->
  let w1 := (save_model model optimizer saved_args config (filepath args)
                        w).2 in
  torch_load (filepath args) w1
  = (Ok (Pickle (save_info model optimizer saved_args config (rng w))), w1)
  /\ match test_loaders args with
     | Ok TL =>
         exists dev r1 test r2 w',
           model_eval_multitask (sst_dev_loader TL) (para_dev_loader TL)
                                (sts_dev_loader TL) m'
                                (set_torch_rng t (rng w)) = (dev, r1)
           /\ model_eval_test_multitask
                (sst_test_loader TL) (para_test_loader TL)
                (sts_test_loader TL) m' r1 = (test, r2)
           /\ test_multitask args w1 = (Ok tt, w')
           /\ disk w'
              = write_all (prediction_files args dev test) (disk w1)
     | Raise e =>
         exists w', test_multitask args w1 = (Raise e, w')
                    /\ disk w' = disk w1
     end.
Proof.
  intros Hm Hl w1. subst w1. rewrite save_model_run. cbn [snd].
  set (w1 := set_stdout _ _).
  assert (disk w1 !! filepath args
          = Some (Pickle (save_info model optimizer saved_args config (rng w))))
    as Hd by apply lookup_insert_eq.
  assert (rng w1 = rng w) as Hrng by reflexivity.
  split.
  - unfold torch_load. by rewrite Hd.
  - rewrite <- Hrng in Hm.
    destruct (test_loaders args) as [TL|e] eqn:HTL.
    + destruct (model_eval_multitask (sst_dev_loader TL)
                  (para_dev_loader TL) (sts_dev_loader TL) m'
                  (set_torch_rng t (rng w))) as [dev r1] eqn:Hdev.
      destruct (model_eval_test_multitask (sst_test_loader TL)
                  (para_test_loader TL) (sts_test_loader TL) m' r1)
        as [test r2] eqn:Htest.
      exists dev, r1, test, r2. eexists.
      split; [reflexivity|]. split; [exact Htest|].
      rewrite <- Hrng in Hdev.
      rewrite (test_multitask_run args w1 _ config m t _ m' TL dev r1
                 test r2 Hd eq_refl Hm eq_refl Hl HTL Hdev Htest).
      split; reflexivity.
    + exact (test_multitask_loaders_refused args w1 _ config m t _ m' e
               Hd eq_refl Hm eq_refl Hl HTL).
Qed.

Lemma write_all_other files (d : gmap string File) p :
  p ∉ files.*1 -> write_all files d !! p = d !! p.
Proof.
  revert d. induction files as [|[q t] files IH]; intros d Hp; [done|].
  simpl in *. apply not_elem_of_cons in Hp as [Hne Hp].
  unfold write_all in *. simpl. rewrite IH by done.
  by rewrite lookup_insert_ne.
Qed.

Lemma write_all_lookup files (d : gmap string File) p t :
  NoDup files.*1 -> (p, t) ∈ files -> write_all files d !! p = Some (Text t).
Proof.
  revert d. induction files as [|[q u] files IH]; intros d Hnd Hin.
  - by apply elem_of_nil in Hin.
  - simpl in Hnd. pose proof (NoDup_cons_1_1 _ _ Hnd) as Hq.
    apply NoDup_cons_1_2 in Hnd.
    apply elem_of_cons in Hin as [[= -> ->]|Hin].
    + pose proof (write_all_other files (<[q := Text u]> d) q Hq) as Ho.
      unfold write_all in *. simpl. rewrite Ho. apply lookup_insert_eq.
    + unfold write_all in *. simpl. by apply IH.
Qed.

(** X9: after a run of test_multitask that returns, every file other
    than the six output paths is as before; the file at sts_test_out
    holds the header and the rows of the STS test predictions that
    model_eval_test_multitask returned (the last write wins when paths
    coincide); and when the six paths are pairwise distinct each holds
    the text written for it from what the evaluation routines
    returned. *)
Theorem prediction_files_on_disk args w w' :
  test_multitask args w = (Ok tt, w') ->
  exists d config m0 t sd (model : MultitaskBERT) TL dev r1 test r2,
    (disk w !! filepath args = Some (Pickle d)
     /\ d !! "model_config" = Some (VConfig config)
     /\ Bert.init initial_tensor from_pretrained config (torch_rng (rng w))
        = (Ok m0, t)
     /\ d !! "model" = Some sd
     /\ load_state_dict m0 (OValue sd) = Ok model
     /\ test_loaders args = Ok TL)
    /\ model_eval_multitask (sst_dev_loader TL) (para_dev_loader TL)
                            (sts_dev_loader TL) model
                            (set_torch_rng t (rng w)) = (dev, r1)
    /\ model_eval_test_multitask (sst_test_loader TL) (para_test_loader TL)
                                 (sts_test_loader TL) model r1 = (test, r2)
    /\ (forall p, p ∉ out_paths args -> disk w' !! p = disk w !! p)
    /\ disk w' !! sts_test_out args
       = Some (Text (prediction_text "Similiary" (test_sts_sent_ids test)
                                     (test_sts_y_pred test)))
    /\ (NoDup (out_paths args) ->
        forall p t, (p, t) ∈ prediction_files args dev test ->
                    disk w' !! p = Some (Text t)).
Proof.
  intros Hrun.
  destruct (test_multitask_evaluated args w w' Hrun)
    as (d & config & m0 & t & sd & model & TL & dev & r1 & test & r2
        & Hcheckpoint & Hdev & Htest & ->).
  exists d, config, m0, t, sd, model, TL, dev, r1, test, r2.
  split; [exact Hcheckpoint|]. split; [exact Hdev|].
  split; [exact Htest|]. cbn [disk]. split; [|split].
  - intros p Hp. by apply write_all_other.
  - unfold write_all, prediction_files. simpl. apply lookup_insert_eq.
  - intros Hnd p u Hin. by apply write_all_lookup.
Qed.

End Facts.

End DriverMore.

(* ================================================================== *)
(** ** The submission script *)
(* ================================================================== *)

Module SubmitSpec.
Import Submit.
#[local] Open Scope list_scope.

Lemma list_ascii_of_string_app (a b : string) :
  String.list_ascii_of_string (a ++ b)%string
  = String.list_ascii_of_string a ++ String.list_ascii_of_string b.
Proof.
  induction a as [|c a IH]; [done|].
  change (c :: String.list_ascii_of_string (a ++ b)%string
          = c :: (String.list_ascii_of_string a ++ String.list_ascii_of_string b)).
  by rewrite IH.
Qed.

Lemma endswith_spec s suffix :
  endswith s suffix = true <-> exists p, s = (p ++ suffix)%string.
Proof.
  unfold endswith. rewrite bool_decide_eq_true. split.
  - intros [k Hk]. exists (String.string_of_list_ascii k).
    rewrite <- (String.string_of_list_ascii_of_string s), Hk.
    rewrite <- (String.string_of_list_ascii_of_string
                  (String.string_of_list_ascii k ++ suffix)%string).
    by rewrite list_ascii_of_string_app, String.list_ascii_of_string_of_list_ascii.
  - intros [p ->]. exists (String.list_ascii_of_string p).
    apply list_ascii_of_string_app.
Qed.

Lemma members_sources (required : list string) :
  (map (fun file => (file, join_dot file)) required).*1 = required.
Proof. induction required as [|f l IH]; [done|]. simpl. f_equal. exact IH. Qed.

(** X13: the submission script fails with FileNotFoundError when there
    is no predictions directory; otherwise it writes the archive
    cs224n_default_final_project_submission<suffix>.zip, and a file is
    added to it exactly when it is a name of the working directory that
    ends in ".py" or a name of the predictions directory (under
    "predictions/"): checkpoints, data and other files are left out. *)
Theorem archive_members d file_suffix :
  (predictions d = None -> script d file_suffix = Raise FileNotFoundError)
  /\ (forall ps, predictions d = Some ps ->
        exists zip line,
          script d file_suffix = Ok (zip, line)
          /\ zip_name zip
             = ("cs224n_default_final_project_submission" ++ file_suffix
                  ++ ".zip")%string
          /\ forall file,
               file ∈ (members zip).*1 <->
               (file ∈ cwd d /\ exists stem, file = (stem ++ ".py")%string)
               \/ (exists p, p ∈ ps /\ file = ("predictions/" ++ p)%string)).
Proof.
  unfold script, required_files. split.
  - by intros ->.
  - intros ps ->. eexists _, _. split; [reflexivity|]. split.
    + simpl. generalize "cs224n_default_final_project_submission".
      intros a. induction a as [|c a IH]; [done|].
      change (String c ((a ++ file_suffix) ++ ".zip")
              = String c (a ++ file_suffix ++ ".zip"))%string.
      by rewrite IH.
    + intros file. simpl.
      rewrite members_sources, elem_of_app, list_elem_of_filter,
        list_elem_of_fmap.
      rewrite endswith_spec. split.
      * intros [[Hs Hin]|(p & -> & Hin)]; [left|right]; eauto.
      * intros [[Hin Hs]|(p & Hin & ->)]; [left|right]; eauto.
Qed.
End SubmitSpec.

(* ================================================================== *)
(** ** Further runs on the closed instances *)
(* ================================================================== *)

Module MoreRuns.
Import Bert Driver Observe DriverSpec DriverMore.
#[local] Open Scope list_scope.

Section OnDemo.
#[local] Existing Instances Demo.collab Demo.ops.

Lemma step_simultaneous_sequence_witness :
  exists l1 l2 l3 model' optimizer' w',
    step_simultaneous Demo.args Demo.loaders
                      (Demo.model, Demo.adamw, PyFloat.of_int 0, 0%Z)
                      Demo.world0
    = (Ok (model', optimizer',
           PyFloat.add (PyFloat.of_int 0)
                       (item (tensor_add (tensor_add l1 l2) l3)),
           (0 + 1)%Z), w')
    /\ (model', optimizer')
       = effect step
           (effect (backward (tensor_add (tensor_add l1 l2) l3))
                   (effect zero_grad (Demo.model, Demo.adamw)))
    /\ new_calls Demo.world0 w'
       = [zero_grad; backward (tensor_add (tensor_add l1 l2) l3); step].
Proof.
  eexists _, _, _.
  eapply (proj2 (step_simultaneous_sequence Demo.args Demo.loaders
                   Demo.model Demo.adamw (PyFloat.of_int 0) 0%Z
                   Demo.world0)).
  - vm_compute. reflexivity.
  - vm_compute. reflexivity.
Defined.

Lemma joint_epoch_steps_witness :
  exists e w1 ls,
    train_and_eval (joint_step true) Demo.args Demo.loaders Demo.model
                   Demo.pcgrad_adam Demo.world0 = (Ok e, w1)
    /\ length ls = 1000%nat
    /\ new_calls Demo.world0 w1
       = train_mode :: concat (map (joint_step_calls true) ls)
    /\ e_train_loss e
       = PyFloat.div
           (foldl (fun train_loss l =>
                     PyFloat.add train_loss (item (loss_sum l)))
                  (PyFloat.of_int 0) ls)
           (PyFloat.of_int 1000).
Proof.
  destruct DriverRuns.three_epochs as (e & w1 & _ & _ & _ & _ & _ & _ & _
                                       & _ & _ & _ & _ & _ & Heval & _).
  destruct (joint_epoch_steps true Demo.args Demo.loaders Demo.model
              Demo.pcgrad_adam Demo.world0 e w1 Heval)
    as (ls & Hlen & Hcalls & Hloss).
  exists e, w1, ls.
  exact (conj Heval (conj Hlen (conj Hcalls Hloss))).
Defined.

Lemma epoch_sst_one_step_per_batch_witness :
  exists ls s' w',
    epoch_sst Demo.args Demo.loaders Demo.config 0%Z
              (Demo.model, Demo.adamw, PyFloat.of_int 0, None) Demo.world0
    = (Ok s', w')
    /\ length ls
       = length (iterate (sst_train_dataloader Demo.loaders)
                         (rng Demo.world0)).1
    /\ new_calls Demo.world0 w'
       = train_mode :: concat (map single_step_calls ls).
Proof.
  apply (epoch_sst_one_step_per_batch Demo.args Demo.loaders Demo.config
           0%Z (Demo.model, Demo.adamw, PyFloat.of_int 0, None)
           Demo.world0).
  vm_compute. discriminate.
Defined.

(** An epoch of the paraphrase phase on the closed instance returns. *)
Lemma epoch_para_returns :
  exists s' w',
    epoch_para Demo.args Demo.loaders Demo.config 0%Z
               (Demo.model, Demo.adamw, PyFloat.of_int 0, Some Demo.half)
               Demo.world0 = (Ok s', w').
Proof. eexists _, _. vm_compute. reflexivity. Qed.

Lemma epoch_para_reports_carried_train_acc_witness :
  exists s' w' acc train_loss dev_acc,
    epoch_para Demo.args Demo.loaders Demo.config 0%Z
               (Demo.model, Demo.adamw, PyFloat.of_int 0, Some Demo.half)
               Demo.world0
    = (Ok s', w')
    /\ Some Demo.half = Some acc
    /\ s'.2 = Some acc
    /\ list.last (stdout w')
       = Some (epoch_line 0%Z train_loss acc dev_acc).
Proof.
  destruct epoch_para_returns as (s' & w' & Hrun).
  destruct (epoch_para_reports_carried_train_acc
              Demo.args Demo.loaders Demo.config 0%Z Demo.model Demo.adamw
              (PyFloat.of_int 0) (Some Demo.half) s' Demo.world0 w' Hrun)
    as (acc & tl & dev & Hacc & Hs & Hlast).
  exists s', w', acc, tl, dev.
  exact (conj Hrun (conj Hacc (conj Hs Hlast))).
Defined.

Lemma para_loss_one_pair_batch_witness :
  (* one pair: sizes [1, 1] and [1] *)
  call para_loss [ATensor [1; 1]%nat; ATensor [1%nat]; AArgs Demo.args]
       Demo.world0
  = (Raise ValueError, Demo.world0)
  (* two pairs: sizes [2, 1] and [2] *)
  /\ call para_loss [ATensor [2; 1]%nat; ATensor [2%nat]; AArgs Demo.args]
          Demo.world0
     = (Ok [], Demo.world0)
  (* a step on a training file of one pair *)
  /\ exists w',
      step_para (Demo.args_files "data/ids-sst-train.csv"
                                 "data/one-pair.csv")
                (Demo.loaders_of
                   (Demo.args_files "data/ids-sst-train.csv"
                                    "data/one-pair.csv"))
                (Demo.model, Demo.adamw, PyFloat.of_int 0, 0%Z) Demo.world0
      = (Raise ValueError, w')
      /\ new_calls Demo.world0 w' = [zero_grad]
      /\ disk w' = disk Demo.world0.
Proof.
  pose proof (para_loss_one_pair_batch
                (Demo.args_files "data/ids-sst-train.csv"
                                 "data/one-pair.csv")
                (Demo.loaders_of
                   (Demo.args_files "data/ids-sst-train.csv"
                                    "data/one-pair.csv"))
                Demo.model Demo.adamw (PyFloat.of_int 0) 0%Z Demo.world0)
    as [_ Hstep].
  pose proof (para_loss_one_pair_batch Demo.args Demo.loaders Demo.model
                Demo.adamw (PyFloat.of_int 0) 0%Z Demo.world0)
    as [Hloss _].
  split; [exact (Hloss 1%nat [1; 1]%nat [1%nat] Demo.world0
                       eq_refl eq_refl)|].
  split; [exact (Hloss 2%nat [2; 1]%nat [2%nat] Demo.world0
                       eq_refl eq_refl)|].
  eexists. eapply Hstep.
  - vm_compute. reflexivity.
  - vm_compute. reflexivity.
  - reflexivity.
  - reflexivity.
Defined.

Lemma empty_training_set_is_refused_witness :
  train_multitask (Demo.args_files "data/empty.csv" "data/quora-train.csv")
                  Demo.world0
  = (Raise ValueError, Demo.world0)
  /\ train_simultaneous
       (Demo.args_files "data/empty.csv" "data/quora-train.csv") Demo.world0
     = (Raise ValueError, Demo.world0)
  /\ train_PCGrad
       (Demo.args_files "data/empty.csv" "data/quora-train.csv") Demo.world0
     = (Raise ValueError, Demo.world0).
Proof.
  eapply (empty_training_set_is_refused
            (Demo.args_files "data/empty.csv" "data/quora-train.csv")).
  - reflexivity.
  - reflexivity.
  - reflexivity.
Defined.

Lemma not_a_valid_mode : "first-layer" ∉ valid_modes.
Proof.
  intros Hin. apply elem_of_cons in Hin as [Hin|Hin]; [discriminate|].
  apply elem_of_cons in Hin as [Hin|Hin]; [discriminate|].
  by apply elem_of_nil in Hin.
Qed.

Lemma training_rejects_invalid_mode_witness :
  (* the loaders are built: the constructor's assertion fails *)
  (train_multitask (Demo.args_with "first-layer" 1) Demo.world0
   = (Raise AssertionError, Demo.world0)
   /\ train_simultaneous (Demo.args_with "first-layer" 1) Demo.world0
      = (Raise AssertionError, Demo.world0)
   /\ train_PCGrad (Demo.args_with "first-layer" 1) Demo.world0
      = (Raise AssertionError, Demo.world0))
  (* a batch size of 0: the first loader is refused *)
  /\ (train_multitask (Demo.args_batch "first-layer" 0) Demo.world0
      = (Raise ValueError, Demo.world0)
      /\ train_simultaneous (Demo.args_batch "first-layer" 0) Demo.world0
         = (Raise ValueError, Demo.world0)
      /\ train_PCGrad (Demo.args_batch "first-layer" 0) Demo.world0
         = (Raise ValueError, Demo.world0)).
Proof.
  split.
  - exact (training_rejects_invalid_mode (Demo.args_with "first-layer" 1)
             Demo.world0 not_a_valid_mode).
  - exact (training_rejects_invalid_mode (Demo.args_batch "first-layer" 0)
             Demo.world0 not_a_valid_mode).
Defined.


Lemma test_multitask_needs_checkpoint_witness :
  test_multitask Demo.args Demo.world0
  = (Raise FileNotFoundError, Demo.world0)
  /\ test_multitask Demo.args Demo.world_without_model
     = (Raise KeyError,
        set_rng (@set_torch_rng Demo.collab 11717%Z
                   (rng Demo.world_without_model))
                Demo.world_without_model).
Proof.
  split.
  - apply (proj1 (test_multitask_needs_checkpoint Demo.args Demo.world0)).
    reflexivity.
  - apply (proj2 (proj2 (test_multitask_needs_checkpoint
                           Demo.args Demo.world_without_model))
             {["model_config" := VConfig Demo.config]} Demo.config
             Demo.model).
    + vm_compute. reflexivity.
    + vm_compute. reflexivity.
    + vm_compute. reflexivity.
    + vm_compute. reflexivity.
Defined.

Lemma main_not_training_needs_checkpoint_witness :
  main Demo.args Demo.world0
  = (Raise FileNotFoundError,
     set_stdout (stdout Demo.world0 ++ ["Not training"])
       (set_rng (mkRngs (random_seed 11711) (np_random_seed 11711)
                        (torch_manual_seed 11711)) Demo.world0))
  /\ main (Demo.args_seeded (-1)) Demo.world0
     = (Raise ValueError,
        set_rng (mkRngs (random_seed (-1)) (numpy_rng (rng Demo.world0))
                        (torch_rng (rng Demo.world0))) Demo.world0).
Proof.
  split.
  - refine (main_not_training_needs_checkpoint Demo.args "none"
              Demo.world0 _ _ _ _).
    + reflexivity.
    + discriminate.
    + discriminate.
    + vm_compute. reflexivity.
  - refine (main_not_training_needs_checkpoint (Demo.args_seeded (-1))
              "none" Demo.world0 _ _ _ _).
    + reflexivity.
    + discriminate.
    + discriminate.
    + vm_compute. reflexivity.
Defined.

Lemma saved_checkpoint_can_be_tested_witness :
  exists TL dev r1 test r2 w',
    test_loaders Demo.args = Ok TL
    /\ model_eval_multitask (sst_dev_loader TL) (para_dev_loader TL)
                            (sts_dev_loader TL) Demo.model
                            (@set_torch_rng Demo.collab 11717%Z
                               (rng Demo.world0)) = (dev, r1)
    /\ model_eval_test_multitask (sst_test_loader TL) (para_test_loader TL)
                                 (sts_test_loader TL) Demo.model r1
       = (test, r2)
    /\ test_multitask Demo.args
         (save_model Demo.model Demo.adamw Demo.args Demo.config
                     (filepath Demo.args) Demo.world0).2 = (Ok tt, w')
    /\ disk w'
       = write_all (prediction_files Demo.args dev test)
           (disk (save_model Demo.model Demo.adamw Demo.args Demo.config
                             (filepath Demo.args) Demo.world0).2).
Proof.
  assert (Bert.init initial_tensor from_pretrained Demo.config
                    (torch_rng (rng Demo.world0))
          = (Ok Demo.model, 11717%Z)) as Hinit by (vm_compute; reflexivity).
  assert (load_state_dict Demo.model (OValue (VModel (state_dict Demo.model)))
          = Ok Demo.model) as Hload by reflexivity.
  pose proof (saved_checkpoint_can_be_tested Demo.model Demo.adamw
                Demo.args Demo.config Demo.args Demo.world0 Demo.model
                11717%Z Demo.model Hinit Hload) as Hsaved.
  cbv zeta in Hsaved. destruct Hsaved as [_ Hsaved].
  destruct (test_loaders Demo.args) as [TL|e] eqn:HTL;
    [|exfalso; vm_compute in HTL; discriminate].
  destruct Hsaved as (dev & r1 & test & r2 & w' & Hdev & Htest & Hrun & Hd).
  exists TL, dev, r1, test, r2, w'.
  exact (conj eq_refl (conj Hdev (conj Htest (conj Hrun Hd)))).
Defined.

(** [test_multitask] on the closed instance, from the saved checkpoint,
    returns. *)
Lemma test_multitask_returns :
  exists w', test_multitask Demo.args Demo.world1 = (Ok tt, w').
Proof. eexists. vm_compute. reflexivity. Qed.

Lemma prediction_files_on_disk_witness :
  exists w' TL model r test r2,
    test_multitask Demo.args Demo.world1 = (Ok tt, w')
    /\ model_eval_test_multitask (sst_test_loader TL) (para_test_loader TL)
                                 (sts_test_loader TL) model r = (test, r2)
    /\ disk w' !! sts_test_out Demo.args
       = Some (Text (prediction_text "Similiary" (test_sts_sent_ids test)
                                     (test_sts_y_pred test)))
    /\ disk w' !! filepath Demo.args = disk Demo.world1 !! filepath Demo.args.
Proof.
  destruct test_multitask_returns as [w' Hrun].
  destruct (prediction_files_on_disk Demo.args Demo.world1 w' Hrun)
    as (d & config & m0 & t & sd & model & TL & dev & r1 & test & r2
        & _ & _ & Htest & Hother & Hlast & _).
  exists w', TL, model, r1, test, r2.
  split; [exact Hrun|]. split; [exact Htest|]. split; [exact Hlast|].
  apply Hother. vm_compute.
  intros Hin.
  repeat (apply elem_of_cons in Hin as [Hin|Hin]; [discriminate|]).
  by apply elem_of_nil in Hin.
Defined.

End OnDemo.

Lemma archive_members_witness :
  exists zip line,
    Submit.script Demo.dirs "" = Ok (zip, line)
    /\ Submit.zip_name zip
       = ("cs224n_default_final_project_submission" ++ "" ++ ".zip")%string
    /\ forall file,
         file ∈ (Submit.members zip).*1 <->
         (file ∈ Submit.cwd Demo.dirs
          /\ exists stem, file = (stem ++ ".py")%string)
         \/ (exists p, p ∈ ["sst-dev-output.csv"; "sts-test-output.csv"]
                       /\ file = ("predictions/" ++ p)%string).
Proof.
  apply (proj2 (SubmitSpec.archive_members Demo.dirs "")).
  reflexivity.
Defined.

End MoreRuns.
